(** * PDF signing front end: signature placement and multi-page stamping

    A shallow embedding of the interactive placement logic of the
    [PDFPreview] component and of the session logic of
    [ApplicationSection] (box history, [handleSignPdf]).

    Numbers.  The TypeScript code computes with JavaScript numbers.  The
    specification treats box coordinates as real numbers of the unit
    interval, and so does this development: a number is an exact rational
    ([Q]), compared with [Qeq].  Rounding of binary floating point is outside
    the model, and so are [NaN] and the infinities: a pointer delta is divided
    by the width or height of a rendered page, which is positive (the
    division of [Q] gives 0 for a zero divisor where JavaScript gives [NaN]
    or an infinity). *)

From Stdlib Require Import QArith Qround ZArith List String Bool Lia Lqa.
Import ListNotations.

Open Scope Q_scope.

(** ** JavaScript numbers, idealised *)

Module Num.

(** [a < b] as the boolean test of an [if]. *)
Definition ltb (a b : Q) : bool := negb (Qle_bool b a).

(** [a > b]. *)
Definition gtb (a b : Q) : bool := ltb b a.

(** [Number(v.toFixed(4))]: the nearest multiple of 1/10000; of two equally
    near ones the larger in magnitude ([toFixed] works on the absolute
    value and restores the sign). *)
Definition roundHalfUp4 (v : Q) : Q :=
  inject_Z (Qfloor (v * 10000 + (1 # 2))) / 10000.

Definition toFixed4 (v : Q) : Q :=
  if ltb v 0 then - roundHalfUp4 (- v) else roundHalfUp4 v.

End Num.

(** ** The normalized signature box *)

Record SignatureBox : Type := mkBox {
  box_x : Q;
  box_y : Q;
  box_width : Q;
  box_height : Q
}.

(** Equality of boxes up to the representation of their rational fields. *)
Definition box_eq (a b : SignatureBox) : Prop :=
  box_x a == box_x b /\ box_y a == box_y b /\
  box_width a == box_width b /\ box_height a == box_height b.

(** The constants of the resize branch of [handleSignaturePointerMove]. *)
Definition minWidth : Q := 5 # 100.
Definition minHeight : Q := 3 # 100.

(** The constants of [handleSignatureUpload] and [handlePageClick]. *)
Definition defaultWidth : Q := 25 # 100.
Definition defaultHeight : Q := 12 # 100.

(** The box stays inside the unit square. *)
Definition in_bounds (b : SignatureBox) : Prop :=
  0 <= box_x b /\ 0 <= box_y b /\
  box_x b + box_width b <= 1 /\ box_y b + box_height b <= 1.

(** In bounds and not smaller than the minimum size. *)
Definition valid_box (b : SignatureBox) : Prop :=
  in_bounds b /\ minWidth <= box_width b /\ minHeight <= box_height b.

Definition in_boundsb (b : SignatureBox) : bool :=
  Qle_bool 0 (box_x b) && Qle_bool 0 (box_y b) &&
  Qle_bool (box_x b + box_width b) 1 && Qle_bool (box_y b + box_height b) 1.

Definition valid_boxb (b : SignatureBox) : bool :=
  in_boundsb b && Qle_bool minWidth (box_width b) && Qle_bool minHeight (box_height b).

(** ** The [PDFPreview] component *)

Record DOMRect : Type := mkRect {
  rect_left : Q;
  rect_top : Q;
  rect_width : Q;
  rect_height : Q
}.

(** A click: pointer position and the bounding rectangle of
    [event.currentTarget] (the page container). *)
Record MouseEvent : Type := mkMouse {
  click_clientX : Q;
  click_clientY : Q;
  click_targetRect : DOMRect
}.

Record PointerEvent : Type := mkPointer {
  ev_clientX : Q;
  ev_clientY : Q;
  ev_pointerId : Z
}.

Module PDFPreview.

Inductive DragMode : Type := move | resize.

(** The object held by [dragStateRef]. *)
Record DragState : Type := mkDrag {
  mode : option DragMode;
  pointerId : option Z;
  startX : Q;
  startY : Q;
  startBox : option SignatureBox
}.

(** The props the handlers read.  A callback prop is present or absent;
    [signatureImageUrl] matters only through its truthiness. *)
Record Props : Type := mkProps {
  onPositionSelect : bool;
  placementMode : bool;
  signatureImageUrl : bool;
  signatureBox : option SignatureBox;
  onSignatureBoxChange : bool
}.

(** The refs of the component: the drag in progress and the first page's
    container (its current bounding rectangle when mounted). *)
Record Refs : Type := mkRefs {
  dragStateRef : option DragState;
  firstPageContainerRef : option DOMRect
}.

(** What a handler calls on its parent and on the toast context, in call
    order.  [SignatureBoxChange box options] carries the optional
    [pushHistory] of the options object. *)
Inductive Callback : Type :=
| SignatureBoxChange (box : option SignatureBox) (pushHistory : option bool)
| PositionSelect (x y : Q)
| ShowError (msg : string).

Definition clamp (value min max : Q) : Q :=
  if Num.ltb value min then min
  else if Num.gtb value max then max
  else value.

Definition firstPageOnlyMessage : string :=
  "Hey! Signature positioning should be done only on the first page.".

Definition handlePageClick (P : Props) (event : MouseEvent) (pageIndex : nat)
  : list Callback :=
  if negb (onPositionSelect P) && negb (placementMode P && onSignatureBoxChange P)
  then []
  else if negb (Nat.eqb pageIndex 0)
  then [ShowError firstPageOnlyMessage]
  else
    let rect := click_targetRect event in
    let x := (click_clientX event - rect_left rect) / rect_width rect in
    let y := (click_clientY event - rect_top rect) / rect_height rect in
    (if placementMode P && onSignatureBoxChange P then
       let boxX := clamp (x - defaultWidth / 2) 0 (1 - defaultWidth) in
       let boxY := clamp (y - defaultHeight / 2) 0 (1 - defaultHeight) in
       let box := {| box_x := Num.toFixed4 boxX;
                     box_y := Num.toFixed4 boxY;
                     box_width := Num.toFixed4 defaultWidth;
                     box_height := Num.toFixed4 defaultHeight |} in
       [SignatureBoxChange (Some box) (Some true)]
     else [])
    ++ (if onPositionSelect P
        then [PositionSelect (Num.toFixed4 x) (Num.toFixed4 y)]
        else []).

Definition handleSignaturePointerDown
    (P : Props) (R : Refs) (event : PointerEvent) (m : DragMode) : Refs :=
  match placementMode P, signatureBox P, firstPageContainerRef R with
  | true, Some box, Some _ =>
      {| dragStateRef := Some {| mode := Some m;
                                 pointerId := Some (ev_pointerId event);
                                 startX := ev_clientX event;
                                 startY := ev_clientY event;
                                 startBox := Some box |};
         firstPageContainerRef := firstPageContainerRef R |}
  | _, _, _ => R
  end.

(** The box a pointer move proposes for a drag that started at
    [currentBox], for the normalized deltas. *)
Definition draggedBox (m : DragMode) (currentBox : SignatureBox) (deltaX deltaY : Q)
  : SignatureBox :=
  match m with
  | move =>
      let x := clamp (box_x currentBox + deltaX) 0 (1 - box_width currentBox) in
      let y := clamp (box_y currentBox + deltaY) 0 (1 - box_height currentBox) in
      {| box_x := x; box_y := y;
         box_width := box_width currentBox; box_height := box_height currentBox |}
  | resize =>
      let width := clamp (box_width currentBox + deltaX) minWidth (1 - box_x currentBox) in
      let height := clamp (box_height currentBox + deltaY) minHeight (1 - box_y currentBox) in
      {| box_x := box_x currentBox; box_y := box_y currentBox;
         box_width := width; box_height := height |}
  end.

Definition handleSignaturePointerMove (P : Props) (R : Refs) (event : PointerEvent)
  : list Callback :=
  match dragStateRef R with
  | Some dragState =>
      match mode dragState, startBox dragState,
            firstPageContainerRef R, onSignatureBoxChange P with
      | Some m, Some currentBox, Some rect, true =>
          let deltaX := (ev_clientX event - startX dragState) / rect_width rect in
          let deltaY := (ev_clientY event - startY dragState) / rect_height rect in
          [SignatureBoxChange (Some (draggedBox m currentBox deltaX deltaY)) (Some false)]
      | _, _, _, _ => []
      end
  | None => []
  end.

Definition clearDrag (R : Refs) : Refs :=
  {| dragStateRef := None; firstPageContainerRef := firstPageContainerRef R |}.

Definition handleSignaturePointerUp (P : Props) (R : Refs) (event : PointerEvent)
  : Refs * list Callback :=
  match dragStateRef R with
  | Some dragState =>
      match mode dragState, onSignatureBoxChange P, signatureBox P with
      | Some _, true, Some box =>
          (clearDrag R, [SignatureBoxChange (Some box) (Some true)])
      | _, _, _ => (clearDrag R, [])
      end
  | None => (clearDrag R, [])
  end.

(** The pointer and click events the rendered pages can receive.  A page
    container has [onClick]; the signature overlay of a page has the three
    pointer handlers and contains the resize handle, and both only
    [isFirstPage ? handler : undefined]. *)
Inductive Event : Type :=
| Click (pageIndex : nat) (event : MouseEvent)
| PointerDownOnBox (pageIndex : nat) (event : PointerEvent)
| PointerDownOnHandle (pageIndex : nat) (event : PointerEvent)
| PointerMove (pageIndex : nat) (event : PointerEvent)
| PointerUp (pageIndex : nat) (event : PointerEvent)
| Layout (rect : option DOMRect).

Definition isFirstPage (index : nat) : bool := Nat.eqb index 0.

(** The overlay exists when [signatureImageUrl && signatureBox]. *)
Definition overlayRendered (P : Props) : bool :=
  signatureImageUrl P &&
  match signatureBox P with Some _ => true | None => false end.

(** One event through the rendered tree: the new refs and the callbacks. *)
Definition onEvent (P : Props) (R : Refs) (e : Event) : Refs * list Callback :=
  match e with
  | Click pageIndex event => (R, handlePageClick P event pageIndex)
  | PointerDownOnBox pageIndex event =>
      if overlayRendered P && isFirstPage pageIndex
      then (handleSignaturePointerDown P R event move, [])
      else (R, [])
  | PointerDownOnHandle pageIndex event =>
      if overlayRendered P && isFirstPage pageIndex
      then (handleSignaturePointerDown P R event resize, [])
      else (R, [])
  | PointerMove pageIndex event =>
      if overlayRendered P && isFirstPage pageIndex
      then (R, handleSignaturePointerMove P R event)
      else (R, [])
  | PointerUp pageIndex event =>
      if overlayRendered P && isFirstPage pageIndex
      then handleSignaturePointerUp P R event
      else (R, [])
  | Layout rect =>
      ({| dragStateRef := dragStateRef R; firstPageContainerRef := rect |}, [])
  end.

(** The page an event is delivered to, if any. *)
Definition eventPage (e : Event) : option nat :=
  match e with
  | Click i _ | PointerDownOnBox i _ | PointerDownOnHandle i _
  | PointerMove i _ | PointerUp i _ => Some i
  | Layout _ => None
  end.

End PDFPreview.

(** ** pdf-lib and the REST client, as far as [handleSignPdf] uses them *)

Definition Bytes : Type := list Byte.byte.

Record File : Type := mkFile {
  file_name : string;
  file_type : string;
  file_bytes : Bytes
}.

(** A thrown value; the handler reads only its [message]. *)
Record Exn : Type := mkExn { message : string }.

Record DrawOptions : Type := mkOptions {
  opt_x : Q;
  opt_y : Q;
  opt_width : Q;
  opt_height : Q
}.

(** The handle of an embedded image. *)
Record PDFImage : Type := mkImage { image_ref : nat }.

Record DrawOp : Type := mkOp {
  op_image : PDFImage;
  op_options : DrawOptions
}.

(** A page: its size ([getSize]) and the images drawn on it, oldest first. *)
Record PDFPage : Type := mkPage {
  page_width : Q;
  page_height : Q;
  page_content : list DrawOp
}.

Record PDFDocument : Type := mkDoc { doc_pages : list PDFPage }.

(** The behaviour of the collaborators is not fixed by this repository:
    parsing, image decoding, the argument checks of [drawImage],
    serialisation and the network call are fields of an interface. *)
Class Collaborators : Type := {
  PDFDocument_load : Bytes -> Exn + PDFDocument;
  embedPng : PDFDocument -> Bytes -> Exn + PDFImage;
  embedJpg : PDFDocument -> Bytes -> Exn + PDFImage;
  drawImage_throws : PDFPage -> PDFImage -> DrawOptions -> option Exn;
  save : PDFDocument -> Exn + Bytes;
  apiService_signPDF : string -> string -> option (Q * Q) -> Exn + string
}.

(** [page.drawImage(image, options)]: appends the draw to the page unless the
    library rejects the call. *)
Definition drawImage `{Collaborators}
    (page : PDFPage) (image : PDFImage) (options : DrawOptions) : Exn + PDFPage :=
  match drawImage_throws page image options with
  | Some e => inl e
  | None =>
      inr {| page_width := page_width page;
             page_height := page_height page;
             page_content := page_content page ++ [mkOp image options] |}
  end.

(** ** The box history of [ApplicationSection] *)

(** [history] is a JavaScript array: an index written past the end leaves
    holes, which read as [undefined] ([None]). *)
Record BoxState : Type := mkBoxState {
  history : list (option SignatureBox);
  index : Z
}.

Module JsArray.

(** [a.slice(0, e)] *)
Definition slice0 {A : Type} (a : list A) (e : Z) : list A :=
  let len := Z.of_nat (List.length a) in
  let k := if (e <? 0)%Z then Z.max (len + e) 0 else Z.min e len in
  firstn (Z.to_nat k) a.

(** [a[i]]; [undefined] outside the array. *)
Definition get {A : Type} (a : list (option A)) (i : Z) : option A :=
  if (i <? 0)%Z then None
  else match nth_error a (Z.to_nat i) with
       | Some v => v
       | None => None
       end.

Fixpoint replace {A : Type} (a : list A) (n : nat) (v : A) : list A :=
  match a, n with
  | [], _ => []
  | _ :: t, O => v :: t
  | h :: t, S m => h :: replace t m v
  end.

(** [a[i] = v] on a copy of [a]: replaces inside the array, extends it with
    holes past the end; a negative [i] is not an array index and leaves the
    elements alone. *)
Definition set {A : Type} (a : list (option A)) (i : Z) (v : A) : list (option A) :=
  if (i <? 0)%Z then a
  else if (i <? Z.of_nat (List.length a))%Z then replace a (Z.to_nat i) (Some v)
  else a ++ repeat None (Z.to_nat i - List.length a)%nat ++ [Some v].

End JsArray.

(** The function passed to [setSignatureBoxState] by [updateSignatureBox]. *)
Definition updateBoxState (box : option SignatureBox) (pushHistory : bool)
    (prev : BoxState) : BoxState :=
  match box with
  | None => {| history := []; index := -1 |}
  | Some box =>
      let normalizedBox :=
        {| box_x := box_x box; box_y := box_y box;
           box_width := box_width box; box_height := box_height box |} in
      if pushHistory then
        let truncated := JsArray.slice0 (history prev) (index prev + 1) ++ [Some normalizedBox] in
        {| history := truncated; index := Z.of_nat (List.length truncated) - 1 |}
      else if (List.length (history prev) =? 0)%nat || (index prev <? 0)%Z then
        {| history := [Some normalizedBox]; index := 0 |}
      else
        {| history := JsArray.set (history prev) (index prev) normalizedBox;
           index := index prev |}
  end.

(** The [currentSignatureBox] memo. *)
Definition currentBoxOf (st : BoxState) : option SignatureBox :=
  if (index st <? 0)%Z then None else JsArray.get (history st) (index st).

(** Modelled from the spec: undo and redo.  The handlers were removed from
    [ApplicationSection] (only the history and its index remain); the
    specification describes them as index moves: [undo] moves the index
    back one and is a no-op at index 0, [redo] moves it forward one and is a
    no-op at the tail. *)
Definition undo (st : BoxState) : BoxState :=
  if (index st <=? 0)%Z then st
  else {| history := history st; index := index st - 1 |}.

Definition redo (st : BoxState) : BoxState :=
  if (Z.of_nat (List.length (history st)) - 1 <=? index st)%Z then st
  else {| history := history st; index := index st + 1 |}.

(** ** The [ApplicationSection] component *)

Module App.

Inductive Step : Type := upload | signature | preview | signing | complete.

(** The calls made on the toast context, oldest first. *)
Inductive Toast : Type :=
| Success (msg : string)
| Error (msg : string)
| Loading (toastId : nat) (msg : string)
| Dismiss (toastId : nat).

(** The [useState] cells of the component, and the toast log.  An object
    URL stands for the blob or file it was created from.  ([zoom] only
    scales the rendering and is left out.) *)
Record AppState : Type := mkApp {
  currentStep : Step;
  uploadedPdf : option File;
  uploadedSignature : option File;
  documentId : option string;
  signatureId : option string;
  signedPdfUrl : option Bytes;
  signedDocumentId : option string;
  signedBlob : option Bytes;
  signingProgress : Z;
  error : option string;
  isSigning : bool;
  signaturePosition : option (Q * Q);
  placementMode : bool;
  signaturePreviewUrl : option File;
  signatureBoxState : BoxState;
  hasSignedOnce : bool;
  toasts : list Toast
}.

Definition setCurrentStep (v : Step) (s : AppState) : AppState :=
  {| currentStep := v;
     uploadedPdf := uploadedPdf s;
     uploadedSignature := uploadedSignature s;
     documentId := documentId s;
     signatureId := signatureId s;
     signedPdfUrl := signedPdfUrl s;
     signedDocumentId := signedDocumentId s;
     signedBlob := signedBlob s;
     signingProgress := signingProgress s;
     error := error s;
     isSigning := isSigning s;
     signaturePosition := signaturePosition s;
     placementMode := placementMode s;
     signaturePreviewUrl := signaturePreviewUrl s;
     signatureBoxState := signatureBoxState s;
     hasSignedOnce := hasSignedOnce s;
     toasts := toasts s |}.

Definition setUploadedPdf (v : option File) (s : AppState) : AppState :=
  {| currentStep := currentStep s;
     uploadedPdf := v;
     uploadedSignature := uploadedSignature s;
     documentId := documentId s;
     signatureId := signatureId s;
     signedPdfUrl := signedPdfUrl s;
     signedDocumentId := signedDocumentId s;
     signedBlob := signedBlob s;
     signingProgress := signingProgress s;
     error := error s;
     isSigning := isSigning s;
     signaturePosition := signaturePosition s;
     placementMode := placementMode s;
     signaturePreviewUrl := signaturePreviewUrl s;
     signatureBoxState := signatureBoxState s;
     hasSignedOnce := hasSignedOnce s;
     toasts := toasts s |}.

Definition setUploadedSignature (v : option File) (s : AppState) : AppState :=
  {| currentStep := currentStep s;
     uploadedPdf := uploadedPdf s;
     uploadedSignature := v;
     documentId := documentId s;
     signatureId := signatureId s;
     signedPdfUrl := signedPdfUrl s;
     signedDocumentId := signedDocumentId s;
     signedBlob := signedBlob s;
     signingProgress := signingProgress s;
     error := error s;
     isSigning := isSigning s;
     signaturePosition := signaturePosition s;
     placementMode := placementMode s;
     signaturePreviewUrl := signaturePreviewUrl s;
     signatureBoxState := signatureBoxState s;
     hasSignedOnce := hasSignedOnce s;
     toasts := toasts s |}.

Definition setDocumentId (v : option string) (s : AppState) : AppState :=
  {| currentStep := currentStep s;
     uploadedPdf := uploadedPdf s;
     uploadedSignature := uploadedSignature s;
     documentId := v;
     signatureId := signatureId s;
     signedPdfUrl := signedPdfUrl s;
     signedDocumentId := signedDocumentId s;
     signedBlob := signedBlob s;
     signingProgress := signingProgress s;
     error := error s;
     isSigning := isSigning s;
     signaturePosition := signaturePosition s;
     placementMode := placementMode s;
     signaturePreviewUrl := signaturePreviewUrl s;
     signatureBoxState := signatureBoxState s;
     hasSignedOnce := hasSignedOnce s;
     toasts := toasts s |}.

Definition setSignatureId (v : option string) (s : AppState) : AppState :=
  {| currentStep := currentStep s;
     uploadedPdf := uploadedPdf s;
     uploadedSignature := uploadedSignature s;
     documentId := documentId s;
     signatureId := v;
     signedPdfUrl := signedPdfUrl s;
     signedDocumentId := signedDocumentId s;
     signedBlob := signedBlob s;
     signingProgress := signingProgress s;
     error := error s;
     isSigning := isSigning s;
     signaturePosition := signaturePosition s;
     placementMode := placementMode s;
     signaturePreviewUrl := signaturePreviewUrl s;
     signatureBoxState := signatureBoxState s;
     hasSignedOnce := hasSignedOnce s;
     toasts := toasts s |}.

Definition setSignedPdfUrl (v : option Bytes) (s : AppState) : AppState :=
  {| currentStep := currentStep s;
     uploadedPdf := uploadedPdf s;
     uploadedSignature := uploadedSignature s;
     documentId := documentId s;
     signatureId := signatureId s;
     signedPdfUrl := v;
     signedDocumentId := signedDocumentId s;
     signedBlob := signedBlob s;
     signingProgress := signingProgress s;
     error := error s;
     isSigning := isSigning s;
     signaturePosition := signaturePosition s;
     placementMode := placementMode s;
     signaturePreviewUrl := signaturePreviewUrl s;
     signatureBoxState := signatureBoxState s;
     hasSignedOnce := hasSignedOnce s;
     toasts := toasts s |}.

Definition setSignedDocumentId (v : option string) (s : AppState) : AppState :=
  {| currentStep := currentStep s;
     uploadedPdf := uploadedPdf s;
     uploadedSignature := uploadedSignature s;
     documentId := documentId s;
     signatureId := signatureId s;
     signedPdfUrl := signedPdfUrl s;
     signedDocumentId := v;
     signedBlob := signedBlob s;
     signingProgress := signingProgress s;
     error := error s;
     isSigning := isSigning s;
     signaturePosition := signaturePosition s;
     placementMode := placementMode s;
     signaturePreviewUrl := signaturePreviewUrl s;
     signatureBoxState := signatureBoxState s;
     hasSignedOnce := hasSignedOnce s;
     toasts := toasts s |}.

Definition setSignedBlob (v : option Bytes) (s : AppState) : AppState :=
  {| currentStep := currentStep s;
     uploadedPdf := uploadedPdf s;
     uploadedSignature := uploadedSignature s;
     documentId := documentId s;
     signatureId := signatureId s;
     signedPdfUrl := signedPdfUrl s;
     signedDocumentId := signedDocumentId s;
     signedBlob := v;
     signingProgress := signingProgress s;
     error := error s;
     isSigning := isSigning s;
     signaturePosition := signaturePosition s;
     placementMode := placementMode s;
     signaturePreviewUrl := signaturePreviewUrl s;
     signatureBoxState := signatureBoxState s;
     hasSignedOnce := hasSignedOnce s;
     toasts := toasts s |}.

Definition setSigningProgress (v : Z) (s : AppState) : AppState :=
  {| currentStep := currentStep s;
     uploadedPdf := uploadedPdf s;
     uploadedSignature := uploadedSignature s;
     documentId := documentId s;
     signatureId := signatureId s;
     signedPdfUrl := signedPdfUrl s;
     signedDocumentId := signedDocumentId s;
     signedBlob := signedBlob s;
     signingProgress := v;
     error := error s;
     isSigning := isSigning s;
     signaturePosition := signaturePosition s;
     placementMode := placementMode s;
     signaturePreviewUrl := signaturePreviewUrl s;
     signatureBoxState := signatureBoxState s;
     hasSignedOnce := hasSignedOnce s;
     toasts := toasts s |}.

Definition setError (v : option string) (s : AppState) : AppState :=
  {| currentStep := currentStep s;
     uploadedPdf := uploadedPdf s;
     uploadedSignature := uploadedSignature s;
     documentId := documentId s;
     signatureId := signatureId s;
     signedPdfUrl := signedPdfUrl s;
     signedDocumentId := signedDocumentId s;
     signedBlob := signedBlob s;
     signingProgress := signingProgress s;
     error := v;
     isSigning := isSigning s;
     signaturePosition := signaturePosition s;
     placementMode := placementMode s;
     signaturePreviewUrl := signaturePreviewUrl s;
     signatureBoxState := signatureBoxState s;
     hasSignedOnce := hasSignedOnce s;
     toasts := toasts s |}.

Definition setIsSigning (v : bool) (s : AppState) : AppState :=
  {| currentStep := currentStep s;
     uploadedPdf := uploadedPdf s;
     uploadedSignature := uploadedSignature s;
     documentId := documentId s;
     signatureId := signatureId s;
     signedPdfUrl := signedPdfUrl s;
     signedDocumentId := signedDocumentId s;
     signedBlob := signedBlob s;
     signingProgress := signingProgress s;
     error := error s;
     isSigning := v;
     signaturePosition := signaturePosition s;
     placementMode := placementMode s;
     signaturePreviewUrl := signaturePreviewUrl s;
     signatureBoxState := signatureBoxState s;
     hasSignedOnce := hasSignedOnce s;
     toasts := toasts s |}.

Definition setSignaturePosition (v : option (Q * Q)) (s : AppState) : AppState :=
  {| currentStep := currentStep s;
     uploadedPdf := uploadedPdf s;
     uploadedSignature := uploadedSignature s;
     documentId := documentId s;
     signatureId := signatureId s;
     signedPdfUrl := signedPdfUrl s;
     signedDocumentId := signedDocumentId s;
     signedBlob := signedBlob s;
     signingProgress := signingProgress s;
     error := error s;
     isSigning := isSigning s;
     signaturePosition := v;
     placementMode := placementMode s;
     signaturePreviewUrl := signaturePreviewUrl s;
     signatureBoxState := signatureBoxState s;
     hasSignedOnce := hasSignedOnce s;
     toasts := toasts s |}.

Definition setPlacementMode (v : bool) (s : AppState) : AppState :=
  {| currentStep := currentStep s;
     uploadedPdf := uploadedPdf s;
     uploadedSignature := uploadedSignature s;
     documentId := documentId s;
     signatureId := signatureId s;
     signedPdfUrl := signedPdfUrl s;
     signedDocumentId := signedDocumentId s;
     signedBlob := signedBlob s;
     signingProgress := signingProgress s;
     error := error s;
     isSigning := isSigning s;
     signaturePosition := signaturePosition s;
     placementMode := v;
     signaturePreviewUrl := signaturePreviewUrl s;
     signatureBoxState := signatureBoxState s;
     hasSignedOnce := hasSignedOnce s;
     toasts := toasts s |}.

Definition setSignaturePreviewUrl (v : option File) (s : AppState) : AppState :=
  {| currentStep := currentStep s;
     uploadedPdf := uploadedPdf s;
     uploadedSignature := uploadedSignature s;
     documentId := documentId s;
     signatureId := signatureId s;
     signedPdfUrl := signedPdfUrl s;
     signedDocumentId := signedDocumentId s;
     signedBlob := signedBlob s;
     signingProgress := signingProgress s;
     error := error s;
     isSigning := isSigning s;
     signaturePosition := signaturePosition s;
     placementMode := placementMode s;
     signaturePreviewUrl := v;
     signatureBoxState := signatureBoxState s;
     hasSignedOnce := hasSignedOnce s;
     toasts := toasts s |}.

Definition setSignatureBoxState (v : BoxState) (s : AppState) : AppState :=
  {| currentStep := currentStep s;
     uploadedPdf := uploadedPdf s;
     uploadedSignature := uploadedSignature s;
     documentId := documentId s;
     signatureId := signatureId s;
     signedPdfUrl := signedPdfUrl s;
     signedDocumentId := signedDocumentId s;
     signedBlob := signedBlob s;
     signingProgress := signingProgress s;
     error := error s;
     isSigning := isSigning s;
     signaturePosition := signaturePosition s;
     placementMode := placementMode s;
     signaturePreviewUrl := signaturePreviewUrl s;
     signatureBoxState := v;
     hasSignedOnce := hasSignedOnce s;
     toasts := toasts s |}.

Definition setHasSignedOnce (v : bool) (s : AppState) : AppState :=
  {| currentStep := currentStep s;
     uploadedPdf := uploadedPdf s;
     uploadedSignature := uploadedSignature s;
     documentId := documentId s;
     signatureId := signatureId s;
     signedPdfUrl := signedPdfUrl s;
     signedDocumentId := signedDocumentId s;
     signedBlob := signedBlob s;
     signingProgress := signingProgress s;
     error := error s;
     isSigning := isSigning s;
     signaturePosition := signaturePosition s;
     placementMode := placementMode s;
     signaturePreviewUrl := signaturePreviewUrl s;
     signatureBoxState := signatureBoxState s;
     hasSignedOnce := v;
     toasts := toasts s |}.

Definition setToasts (v : list Toast) (s : AppState) : AppState :=
  {| currentStep := currentStep s;
     uploadedPdf := uploadedPdf s;
     uploadedSignature := uploadedSignature s;
     documentId := documentId s;
     signatureId := signatureId s;
     signedPdfUrl := signedPdfUrl s;
     signedDocumentId := signedDocumentId s;
     signedBlob := signedBlob s;
     signingProgress := signingProgress s;
     error := error s;
     isSigning := isSigning s;
     signaturePosition := signaturePosition s;
     placementMode := placementMode s;
     signaturePreviewUrl := signaturePreviewUrl s;
     signatureBoxState := signatureBoxState s;
     hasSignedOnce := hasSignedOnce s;
     toasts := v |}.

(** The state of a freshly mounted component. *)
Definition initialState : AppState :=
  {| currentStep := upload;
     uploadedPdf := None;
     uploadedSignature := None;
     documentId := None;
     signatureId := None;
     signedPdfUrl := None;
     signedDocumentId := None;
     signedBlob := None;
     signingProgress := 0%Z;
     error := None;
     isSigning := false;
     signaturePosition := None;
     placementMode := false;
     signaturePreviewUrl := None;
     signatureBoxState := {| history := []; index := -1 |};
     hasSignedOnce := false;
     toasts := [] |}.

Definition showSuccess (msg : string) (s : AppState) : AppState :=
  setToasts (toasts s ++ [Success msg]) s.

Definition showError (msg : string) (s : AppState) : AppState :=
  setToasts (toasts s ++ [Error msg]) s.

Definition dismiss (toastId : nat) (s : AppState) : AppState :=
  setToasts (toasts s ++ [Dismiss toastId]) s.

Definition currentSignatureBox (s : AppState) : option SignatureBox :=
  currentBoxOf (signatureBoxState s).

Definition boxCentre (box : SignatureBox) : Q * Q :=
  (box_x box + box_width box / 2, box_y box + box_height box / 2).

Definition handlePdfUpload (file : File) (docId : string) (s : AppState) : AppState :=
  setHasSignedOnce false
    (setSignedDocumentId None
      (setSignedBlob None
        (setSignedPdfUrl None
          (setError None
            (setCurrentStep signature
              (setDocumentId (Some docId)
                (setUploadedPdf (Some file) s))))))).

Definition defaultBox : SignatureBox :=
  {| box_x := Num.toFixed4 ((1 - defaultWidth) / 2);
     box_y := Num.toFixed4 ((1 - defaultHeight) / 2);
     box_width := Num.toFixed4 defaultWidth;
     box_height := Num.toFixed4 defaultHeight |}.

Definition handleSignatureUpload (file : File) (sigId : string) (s : AppState)
  : AppState :=
  setSignatureBoxState {| history := [Some defaultBox]; index := 0 |}
    (setSignaturePreviewUrl (Some file)
      (setHasSignedOnce false
        (setSignedDocumentId None
          (setSignedBlob None
            (setSignedPdfUrl None
              (setPlacementMode true
                (setSignaturePosition None
                  (setSignatureBoxState {| history := []; index := -1 |}
                    (setCurrentStep preview
                      (setError None
                        (setSignatureId (Some sigId)
                          (setUploadedSignature (Some file) s)))))))))))).

Definition updateSignatureBox (box : option SignatureBox) (pushHistory : bool)
    (s : AppState) : AppState :=
  setSignaturePosition
    (match box with
     | None => None
     | Some b => Some (boxCentre b)
     end)
    (setSignatureBoxState (updateBoxState box pushHistory (signatureBoxState s)) s).

(** The effect on [currentSignatureBox]. *)
Definition syncSignaturePosition (s : AppState) : AppState :=
  setSignaturePosition
    (match currentSignatureBox s with
     | None => None
     | Some b => Some (boxCentre b)
     end) s.

(** *** Handlers that can throw

    An [async] handler body is a computation over the component state that
    returns or throws; a state update made before a throw stays made.  An
    awaited promise is its settled value. *)
Definition M (A : Type) : Type := AppState -> (Exn + A) * AppState.

Definition ret {A : Type} (a : A) : M A := fun s => (inr a, s).

Definition bind {A B : Type} (m : M A) (k : A -> M B) : M B :=
  fun s =>
    match m s with
    | (inl e, s') => (inl e, s')
    | (inr a, s') => k a s'
    end.

Definition throw {A : Type} (e : Exn) : M A := fun s => (inl e, s).

Definition await {A : Type} (settled : Exn + A) : M A := fun s => (settled, s).

Definition update (f : AppState -> AppState) : M unit := fun s => (inr tt, f s).

Definition read {A : Type} (f : AppState -> A) : M A := fun s => (inr (f s), s).

Definition tryCatch {A : Type} (body : M A) (handler : Exn -> M A) : M A :=
  fun s =>
    match body s with
    | (inl e, s') => handler e s'
    | (inr a, s') => (inr a, s')
    end.

Definition tryFinally {A : Type} (body : M A) (finalizer : M unit) : M A :=
  fun s =>
    match body s with
    | (r, s') =>
        match finalizer s' with
        | (inl e, s'') => (inl e, s'')
        | (inr _, s'') => (r, s'')
        end
    end.

Notation "x <- m ;; k" := (bind m (fun x => k))
  (at level 61, m at next level, right associativity).
Notation "m ;; k" := (bind m (fun _ => k))
  (at level 61, right associativity).

Definition showLoading (msg : string) : M nat :=
  fun s =>
    let toastId := List.length (toasts s) in
    (inr toastId, setToasts (toasts s ++ [Loading toastId msg]) s).

(** [!v] for a string or [null]. *)
Definition falsy (v : option string) : bool :=
  match v with
  | None => true
  | Some str => String.eqb str ""
  end.

(** [a || b] for strings. *)
Definition orElse (a b : string) : string :=
  if String.eqb a "" then b else a.

(** [haystack.includes(needle)] *)
Definition includes (haystack needle : string) : bool :=
  match String.index 0 needle haystack with
  | Some _ => true
  | None => false
  end.

Section Signing.

Context `{Collaborators}.

(** The body of the loop over [pdfDoc.getPages()]. *)
Definition stampPage (sigImage : PDFImage) (box : SignatureBox) (page : PDFPage)
  : Exn + PDFPage :=
  let pageWidth := page_width page in
  let pageHeight := page_height page in
  let drawWidth := box_width box * pageWidth in
  let drawHeight := box_height box * pageHeight in
  let topY := box_y box * pageHeight in
  let leftX := box_x box * pageWidth in
  let drawX := leftX in
  let drawY := pageHeight - topY - drawHeight in
  drawImage page sigImage
    {| opt_x := drawX; opt_y := drawY;
       opt_width := drawWidth; opt_height := drawHeight |}.

(** The loop: pages in document order; a throw leaves the loop. *)
Fixpoint stampPages (sigImage : PDFImage) (box : SignatureBox) (pages : list PDFPage)
  : Exn + list PDFPage :=
  match pages with
  | [] => inr []
  | page :: rest =>
      match stampPage sigImage box page with
      | inl e => inl e
      | inr page' =>
          match stampPages sigImage box rest with
          | inl e => inl e
          | inr rest' => inr (page' :: rest')
          end
      end
  end.

Definition missingUploadsMessage : string := "Please upload both PDF and signature".
Definition signingToast : string :=
  "Signing your PDF document... This may take a moment for large files.".
Definition signedToast : string := "PDF signed successfully! Ready for download.".
Definition signFailedMessage : string := "Failed to sign PDF. Please try again.".
Definition positionNotSetMessage : string := "Signature position is not set.".

(** The [try] block of [handleSignPdf]. *)
Definition signTryBlock
    (documentId signatureId : string) (uploadedSignature uploadedPdf : File)
    (loadingToastId : nat) : M unit :=
  update (setSigningProgress 10) ;;
  let pdfBytes := file_bytes uploadedPdf in
  let sigBytes := file_bytes uploadedSignature in
  pdfDoc <- await (PDFDocument_load pdfBytes) ;;
  let isPng := includes (file_type uploadedSignature) "png" in
  sigImage <- await (if isPng then embedPng pdfDoc sigBytes
                     else embedJpg pdfDoc sigBytes) ;;
  update (setSigningProgress 45) ;;
  currentBox <- read currentSignatureBox ;;
  match currentBox with
  | None => throw (mkExn positionNotSetMessage)
  | Some box =>
      pages <- await (stampPages sigImage box (doc_pages pdfDoc)) ;;
      update (setSigningProgress 80) ;;
      stampedBytes <- await (save (mkDoc pages)) ;;
      update (setSignedBlob (Some stampedBytes)) ;;
      update (setSignedPdfUrl (Some stampedBytes)) ;;
      tryCatch
        (position <- read signaturePosition ;;
         signedDocId <- await (apiService_signPDF documentId signatureId position) ;;
         update (setSignedDocumentId (Some signedDocId)))
        (fun apiErr => ret tt) ;;
      update (setSigningProgress 100) ;;
      update (dismiss loadingToastId) ;;
      update (showSuccess signedToast) ;;
      update (setCurrentStep complete)
  end.

Definition signCatchBlock (loadingToastId : nat) (err : Exn) : M unit :=
  let errorMsg := orElse (message err) signFailedMessage in
  update (setError (Some errorMsg)) ;;
  update (showError errorMsg) ;;
  update (setCurrentStep preview) ;;
  update (dismiss loadingToastId).

Definition handleSignPdf : M unit :=
  signedOnce <- read hasSignedOnce ;;
  if signedOnce then ret tt
  else
    s <- read (fun s => s) ;;
    match documentId s, signatureId s, uploadedSignature s, uploadedPdf s,
          currentSignatureBox s with
    | Some docId, Some sigId, Some sigFile, Some pdfFile, Some _ =>
        if falsy (Some docId) || falsy (Some sigId) then
          update (setError (Some missingUploadsMessage)) ;;
          update (showError missingUploadsMessage)
        else
          update (setCurrentStep signing) ;;
          update (setSigningProgress 0) ;;
          update (setError None) ;;
          update (setIsSigning true) ;;
          loadingToastId <- showLoading signingToast ;;
          tryFinally
            (tryCatch (signTryBlock docId sigId sigFile pdfFile loadingToastId)
                      (signCatchBlock loadingToastId))
            (update (setIsSigning false))
    | _, _, _, _, _ =>
        update (setError (Some missingUploadsMessage)) ;;
        update (showError missingUploadsMessage)
    end.

(** The click handler of the Stamp PDF button. *)
Definition handleStampPdf : M unit :=
  s <- read (fun s => s) ;;
  if falsy (documentId s) || falsy (signatureId s)
     || match uploadedSignature s with None => true | Some _ => false end
     || match currentSignatureBox s with None => true | Some _ => false end
     || isSigning s || hasSignedOnce s
  then ret tt
  else handleSignPdf.

(** The state a handler leaves behind. *)
Definition after (handler : M unit) (s : AppState) : AppState := snd (handler s).

End Signing.

End App.

(** ** [ApplicationSection] with its [PDFPreview] child *)

Record World : Type := mkWorld {
  app : App.AppState;
  refs : PDFPreview.Refs
}.

(** The props [ApplicationSection] passes down. *)
Definition propsOf (s : App.AppState) : PDFPreview.Props :=
  {| PDFPreview.onPositionSelect := true;
     PDFPreview.placementMode := App.placementMode s;
     PDFPreview.signatureImageUrl :=
       match App.signaturePreviewUrl s with Some _ => true | None => false end;
     PDFPreview.signatureBox := App.currentSignatureBox s;
     PDFPreview.onSignatureBoxChange := true |}.

(** The callbacks [ApplicationSection] passes down:
    [onSignatureBoxChange] is [updateSignatureBox(box, options?.pushHistory ?? true)],
    [onPositionSelect] sets the marker position. *)
Definition applyCallback (s : App.AppState) (c : PDFPreview.Callback) : App.AppState :=
  match c with
  | PDFPreview.SignatureBoxChange box options =>
      App.updateSignatureBox box
        (match options with Some pushHistory => pushHistory | None => true end) s
  | PDFPreview.PositionSelect x y => App.setSignaturePosition (Some (x, y)) s
  | PDFPreview.ShowError msg => App.showError msg s
  end.

Definition isBoxChange (c : PDFPreview.Callback) : bool :=
  match c with
  | PDFPreview.SignatureBoxChange _ _ => true
  | _ => false
  end.

(** One event: the handler runs, its callbacks update the parent, and when
    the box state was replaced the effect on [currentSignatureBox] runs. *)
Definition dispatch (w : World) (e : PDFPreview.Event) : World :=
  let '(R, callbacks) := PDFPreview.onEvent (propsOf (app w)) (refs w) e in
  let s := fold_left applyCallback callbacks (app w) in
  {| app := if existsb isBoxChange callbacks then App.syncSignaturePosition s else s;
     refs := R |}.

Definition run (w : World) (events : list PDFPreview.Event) : World :=
  fold_left dispatch events w.

(** The states of [run], one per event, oldest first. *)
Fixpoint trace (w : World) (events : list PDFPreview.Event) : list World :=
  match events with
  | [] => []
  | e :: rest => dispatch w e :: trace (dispatch w e) rest
  end.

Definition boxStateOf (w : World) : BoxState := App.signatureBoxState (app w).

(** The session right after the signature image was uploaded: no drag is in
    progress; [rect] is the first page's container, if it is mounted. *)
Definition placing (file : File) (sigId : string) (s : App.AppState)
    (rect : option DOMRect) : World :=
  {| app := App.handleSignatureUpload file sigId s;
     refs := {| PDFPreview.dragStateRef := None;
                PDFPreview.firstPageContainerRef := rect |} |}.

(** ** Sample collaborators and sessions *)

Module Sample.

(** A parser that reads every file as [doc]; decoders that go by the first
    byte (PNG files start with 0x89, JPEG files with 0xFF); a serialiser
    that writes, for every draw, the integer parts of its position. *)
Definition byteOf (q : Q) : Byte.byte :=
  match Byte.of_N (Z.to_N (Qfloor q mod 256)) with
  | Some b => b
  | None => Byte.x00
  end.

Definition serialise (doc : PDFDocument) : Bytes :=
  flat_map (fun page =>
    Byte.x25 :: flat_map (fun op => [byteOf (opt_x (op_options op));
                                      byteOf (opt_y (op_options op))])
                         (page_content page))
    (doc_pages doc).

Definition startsWith (b : Byte.byte) (bytes : Bytes) : bool :=
  match bytes with
  | first :: _ => Byte.eqb first b
  | [] => false
  end.

Definition collaborators (doc : PDFDocument) : Collaborators :=
  {| PDFDocument_load := fun _ => inr doc;
     embedPng := fun _ bytes =>
       if startsWith Byte.x89 bytes then inr (mkImage 1)
       else inl (mkExn "The input is not a PNG file!");
     embedJpg := fun _ bytes =>
       if startsWith Byte.xff bytes then inr (mkImage 1)
       else inl (mkExn "SOI not found in JPEG");
     drawImage_throws := fun _ _ _ => None;
     save := fun d => inr (serialise d);
     apiService_signPDF := fun _ _ _ => inr "signed-1"%string |}.

Definition a4 : PDFPage := mkPage 595 842 [].
Definition a5 : PDFPage := mkPage 420 595 [].
Definition twoPages : PDFDocument := mkDoc [a4; a5].
Definition noPages : PDFDocument := mkDoc [].

Definition pdfFile : File :=
  mkFile "contract.pdf" "application/pdf" [Byte.x25; Byte.x50; Byte.x44; Byte.x46].
Definition pngFile : File :=
  mkFile "signature.png" "image/png" [Byte.x89; Byte.x50; Byte.x4e; Byte.x47].
Definition gifFile : File :=
  mkFile "signature.png" "image/png" [Byte.x47; Byte.x49; Byte.x46; Byte.x38].

Definition pageRect : DOMRect := mkRect 0 0 820 1160.

(** Both files uploaded; the default box is in place. *)
Definition ready : World :=
  placing pngFile "sig-1"
    (App.handlePdfUpload pdfFile "doc-1" App.initialState) (Some pageRect).

(** A move drag by the normalized delta (0.1, -0.05) on the 820 by 1160
    page: pointer down at (400, 600), one move to (482, 542), pointer up. *)
Definition moveDrag : list PDFPreview.Event :=
  [PDFPreview.PointerDownOnBox 0 (mkPointer 400 600 1);
   PDFPreview.PointerMove 0 (mkPointer 482 542 1);
   PDFPreview.PointerUp 0 (mkPointer 482 542 1)].

(** A resize drag from the handle that asks for 0.4 more width. *)
Definition edgeBox : SignatureBox := mkBox (8 # 10) (8 # 10) (1 # 10) (1 # 10).

End Sample.

(** ** Vocabulary of the statements *)

(** The index points at the last element of the history. *)
Definition at_tail (st : BoxState) : Prop :=
  index st = (Z.of_nat (List.length (history st)) - 1)%Z.

(** What holds of every session, once a signature has been uploaded, in the
    course of any sequence of preview events. *)
Record session_ok (w : World) : Prop := mkOk {
  ok_tail : at_tail (boxStateOf w);
  ok_current : exists b, App.currentSignatureBox (app w) = Some b /\ valid_box b;
  ok_url : App.signaturePreviewUrl (app w) <> None;
  ok_placement : App.placementMode (app w) = true;
  ok_drag : forall d, PDFPreview.dragStateRef (refs w) = Some d ->
            (exists m, PDFPreview.mode d = Some m) /\
            (exists b, PDFPreview.startBox d = Some b /\ valid_box b)
}.



(** The part of [session_ok] that concerns [ApplicationSection] alone. *)
Definition app_ok (s : App.AppState) : Prop :=
  at_tail (App.signatureBoxState s) /\
  (exists b, App.currentSignatureBox s = Some b /\ valid_box b) /\
  App.signaturePreviewUrl s <> None /\
  App.placementMode s = true.

Definition drag_ok (R : PDFPreview.Refs) : Prop :=
  forall d, PDFPreview.dragStateRef R = Some d ->
    (exists m, PDFPreview.mode d = Some m) /\
    (exists b, PDFPreview.startBox d = Some b /\ valid_box b).

(** A callback that hands the parent a box hands it a valid one. *)
Definition good_callback (c : PDFPreview.Callback) : Prop :=
  match c with
  | PDFPreview.SignatureBoxChange bo _ => exists b, bo = Some b /\ valid_box b
  | _ => True
  end.


(** The effect of one callback on the box state. *)
Definition stepBox (st : BoxState) (c : PDFPreview.Callback) : BoxState :=
  match c with
  | PDFPreview.SignatureBoxChange bo options =>
      updateBoxState bo
        (match options with Some pushHistory => pushHistory | None => true end) st
  | _ => st
  end.

(** *** Vocabulary for the stamping statements *)

(** The rectangle the specification calls [toPageSpace(box, geometry)]. *)
Definition pageSpaceRect (box : SignatureBox) (pageWidth pageHeight : Q) : DrawOptions :=
  {| opt_x := box_x box * pageWidth;
     opt_y := pageHeight - box_y box * pageHeight - box_height box * pageHeight;
     opt_width := box_width box * pageWidth;
     opt_height := box_height box * pageHeight |}.

(** A drawn rectangle as fractions of the page's own size, measured from the
    top-left corner as in the preview. *)
Definition normalizedRect (r : DrawOptions) (pageWidth pageHeight : Q) : SignatureBox :=
  {| box_x := opt_x r / pageWidth;
     box_y := (pageHeight - opt_y r - opt_height r) / pageHeight;
     box_width := opt_width r / pageWidth;
     box_height := opt_height r / pageHeight |}.

(** [page'] is [page] with one more draw on top: [image] at the page-space
    rectangle of [box]. *)
Definition stampedWith (image : PDFImage) (box : SignatureBox) (page page' : PDFPage)
    : Prop :=
  page_width page' = page_width page /\
  page_height page' = page_height page /\
  page_content page'
  = page_content page
    ++ [mkOp image (pageSpaceRect box (page_width page) (page_height page))].

Section StampVocabulary.

Context `{Collaborators}.

(** The embed step of [handleSignPdf]. *)
Definition embedSignature (pdfDoc : PDFDocument) (sigFile : File) : Exn + PDFImage :=
  if App.includes (file_type sigFile) "png"
  then embedPng pdfDoc (file_bytes sigFile)
  else embedJpg pdfDoc (file_bytes sigFile).

(** The stages of the [try] block of [handleSignPdf] as one result: what
    the specification calls [StampingEngine.stamp]. *)
Definition stamp (pdfFile sigFile : File) (box : SignatureBox) : Exn + Bytes :=
  match PDFDocument_load (file_bytes pdfFile) with
  | inl e => inl e
  | inr pdfDoc =>
      match embedSignature pdfDoc sigFile with
      | inl e => inl e
      | inr sigImage =>
          match App.stampPages sigImage box (doc_pages pdfDoc) with
          | inl e => inl e
          | inr pages => save (mkDoc pages)
          end
      end
  end.

(** The stage at which a stamp fails, and the value thrown there. *)
Inductive stageFailure (pdfFile sigFile : File) (box : SignatureBox) : Exn -> Prop :=
| ParseFails e :
    PDFDocument_load (file_bytes pdfFile) = inl e ->
    stageFailure pdfFile sigFile box e
| EmbedFails pdfDoc e :
    PDFDocument_load (file_bytes pdfFile) = inr pdfDoc ->
    embedSignature pdfDoc sigFile = inl e ->
    stageFailure pdfFile sigFile box e
| DrawFails pdfDoc sigImage e :
    PDFDocument_load (file_bytes pdfFile) = inr pdfDoc ->
    embedSignature pdfDoc sigFile = inr sigImage ->
    App.stampPages sigImage box (doc_pages pdfDoc) = inl e ->
    stageFailure pdfFile sigFile box e
| SerializeFails pdfDoc sigImage pages e :
    PDFDocument_load (file_bytes pdfFile) = inr pdfDoc ->
    embedSignature pdfDoc sigFile = inr sigImage ->
    App.stampPages sigImage box (doc_pages pdfDoc) = inr pages ->
    save (mkDoc pages) = inl e ->
    stageFailure pdfFile sigFile box e.

(** Every stage succeeded: each page got the stamp, and [bytes] is the
    serialisation of the stamped document. *)
Definition stampedAll (pdfFile sigFile : File) (box : SignatureBox) (bytes : Bytes)
    : Prop :=
  exists pdfDoc sigImage pages,
    PDFDocument_load (file_bytes pdfFile) = inr pdfDoc /\
    embedSignature pdfDoc sigFile = inr sigImage /\
    Forall2 (stampedWith sigImage box) (doc_pages pdfDoc) pages /\
    save (mkDoc pages) = inr bytes.

(** Neither decoder of the library accepts the bytes: the image is neither
    a PNG nor a JPEG. *)
Definition unsupportedImage (bytes : Bytes) : Prop :=
  forall pdfDoc,
    (exists e, embedPng pdfDoc bytes = inl e) /\
    (exists e, embedJpg pdfDoc bytes = inl e).

End StampVocabulary.

(** The guards of [handleSignPdf] pass: nothing was signed yet, both uploads
    and their ids are there, and a box is placed. *)
Definition readyToSign (s : App.AppState) (docId sigId : string)
    (sigFile pdfFile : File) (box : SignatureBox) : Prop :=
  App.hasSignedOnce s = false /\
  App.documentId s = Some docId /\ docId <> ""%string /\
  App.signatureId s = Some sigId /\ sigId <> ""%string /\
  App.uploadedSignature s = Some sigFile /\
  App.uploadedPdf s = Some pdfFile /\
  App.currentSignatureBox s = Some box.

(** [page'] is [page] after the loop body of [handleSignPdf], spelled out:
    one more draw of [image], at the rectangle computed from the page's own
    size, which normalizes back to [box] when the page has a positive size. *)
Definition drawnAsPlaced (image : PDFImage) (box : SignatureBox) (page page' : PDFPage)
    : Prop :=
  page_width page' = page_width page /\
  page_height page' = page_height page /\
  exists r,
    page_content page' = page_content page ++ [mkOp image r] /\
    opt_x r = box_x box * page_width page /\
    opt_width r = box_width box * page_width page /\
    opt_height r = box_height box * page_height page /\
    opt_y r = page_height page - box_y box * page_height page
              - box_height box * page_height page /\
    (0 < page_width page -> 0 < page_height page ->
     box_eq (normalizedRect r (page_width page) (page_height page)) box).

(** ** Sessions used as examples *)

Module Scenario.

(** The session of [Sample.ready] in the middle of [Sample.moveDrag]:
    after the pointer went down and moved once. *)
Definition midDrag : World := run Sample.ready (firstn 2 Sample.moveDrag).

(** The box the move proposes there: 0.475 and 0.39, unreduced. *)
Definition movedBox : SignatureBox :=
  mkBox (3895000 # 8200000) (4524000 # 11600000) (2500 # 10000) (1200 # 10000).

(** The pages of [Sample.twoPages] with the default box stamped on. *)
Definition stampedTwoPages : list PDFPage :=
  [mkPage 595 842 [mkOp (mkImage 1) (pageSpaceRect App.defaultBox 595 842)];
   mkPage 420 595 [mkOp (mkImage 1) (pageSpaceRect App.defaultBox 420 595)]].

(** The session after the pointer went down, before it moved. *)
Definition dragStarted : World := run Sample.ready (firstn 1 Sample.moveDrag).


(** A history of three snapshots with the index at the tail. *)
Definition threeSnapshots : BoxState :=
  {| history := [Some App.defaultBox; Some Sample.edgeBox; Some movedBox];
     index := 2 |}.

End Scenario.

Module Stamped.

(** [Sample.ready] with a GIF that was renamed to [signature.png]. *)
Definition readyWithGif : World :=
  placing Sample.gifFile "sig-1"
    (App.handlePdfUpload Sample.pdfFile "doc-1" App.initialState)
    (Some Sample.pageRect).

(** The Stamp PDF button pressed in [Sample.ready], on a two-page
    document; then the box dragged by [Sample.moveDrag]; then the button
    pressed again. *)
Definition signedOnce : App.AppState :=
  App.after (App.handleStampPdf (H := Sample.collaborators Sample.twoPages))
            (app Sample.ready).

Definition movedAfterSigning : World :=
  run {| app := signedOnce; refs := refs Sample.ready |} Sample.moveDrag.

Definition signedTwice : App.AppState :=
  App.after (App.handleStampPdf (H := Sample.collaborators Sample.twoPages))
            (app movedAfterSigning).

End Stamped.

(** ** Upload validation ([SignatureUpload], [PDFUpload]) *)

Module Str.

(** [s.toLowerCase()], on the ASCII letters.  (A string is a sequence of
    bytes here; no character outside ASCII has a lower case among the
    letters of the suffixes tested below.) *)
Definition lowerAscii (c : Ascii.ascii) : Ascii.ascii :=
  let n := Ascii.nat_of_ascii c in
  if (65 <=? n)%nat && (n <=? 90)%nat then Ascii.ascii_of_nat (n + 32) else c.

Fixpoint toLowerCase (s : string) : string :=
  match s with
  | EmptyString => EmptyString
  | String c rest => String (lowerAscii c) (toLowerCase rest)
  end.

(** [s.endsWith(suffix)] *)
Definition endsWith (s suffix : string) : bool :=
  let n := String.length s in
  let m := String.length suffix in
  if (m <=? n)%nat then String.eqb (String.substring (n - m) m s) suffix else false.

End Str.

(** [file.size]: the number of bytes of the file. *)
Definition file_size (file : File) : Z := Z.of_nat (List.length (file_bytes file)).

Module SignatureUpload.

Definition allowedTypes : list string := ["image/png"; "image/jpeg"; "image/jpg"]%string.
Definition allowedExtensions : list string := [".png"; ".jpg"; ".jpeg"]%string.

Definition wrongTypeMessage : string := "Please select a PNG or JPEG image file only.".
Definition tooLargeMessage : string := "Image size must be less than 5MB.".
Definition tooSmallMessage : string :=
  "Image seems too small. Please check if it's a valid image.".

(** [validateImage]: the error message, or [None] for [null]. *)
Definition validateImage (file : File) : option string :=
  if negb (existsb (String.eqb (file_type file)) allowedTypes)
     && negb (existsb (fun ext => Str.endsWith (Str.toLowerCase (file_name file)) ext)
                      allowedExtensions)
  then Some wrongTypeMessage
  else
    let maxSize := (5 * 1024 * 1024)%Z in
    if (file_size file >? maxSize)%Z then Some tooLargeMessage
    else if (file_size file <? 1024)%Z then Some tooSmallMessage
    else None.

End SignatureUpload.

Module PDFUpload.

Definition wrongTypeMessage : string := "Please select a PDF file only.".
Definition tooLargeMessage : string := "File size must be less than 200MB.".
Definition tooSmallMessage : string :=
  "File seems too small. Please check if it's a valid PDF.".

(** [validateFile] *)
Definition validateFile (file : File) : option string :=
  if negb (App.includes (file_type file) "pdf")
     && negb (Str.endsWith (Str.toLowerCase (file_name file)) ".pdf")
  then Some wrongTypeMessage
  else
    let maxSize := (200 * 1024 * 1024)%Z in
    if (file_size file >? maxSize)%Z then Some tooLargeMessage
    else if (file_size file <? 1024)%Z then Some tooSmallMessage
    else None.

End PDFUpload.

(** ** Download and delete ([ApplicationSection]) *)

Module Actions.

Import App.

Definition noDownloadMessage : string := "No signed document available for download".
Definition preparingToast : string := "Preparing download...".
Definition downloadToast : string := "Download started! Check your downloads folder.".
Definition deletingToast : string := "Deleting signed PDF...".
Definition deletedToast : string := "Signed PDF deleted successfully.".
Definition deleteFailedMessage : string :=
  "Failed to delete signed PDF. Please try again.".

(** What the clicked link hands to the browser: the [download] attribute and
    the blob behind its [href]. *)
Record Download : Type := mkDownload {
  download_name : string;
  download_blob : Bytes
}.

(** [handleDownload]: the download it starts, if any.  (Creating and
    clicking the link is taken not to throw.) *)
Definition handleDownload : M (option Download) :=
  s <- read (fun s => s) ;;
  match signedBlob s, uploadedPdf s with
  | Some blob, Some pdf =>
      loadingToastId <- showLoading preparingToast ;;
      tryCatch
        (let link := {| download_name :=
                          String.append "signed_" (orElse (file_name pdf) "document.pdf");
                        download_blob := blob |} in
         update (dismiss loadingToastId) ;;
         update (showSuccess downloadToast) ;;
         ret (Some link))
        (fun err =>
           update (dismiss loadingToastId) ;;
           update (showError
                     (orElse (message err)
                        "Failed to download signed PDF. Please try again.")) ;;
           ret None)
  | _, _ =>
      update (showError noDownloadMessage) ;;
      ret None
  end.

(** The state updates of [handleDeleteSignedPdf] after the request
    succeeded.  ([setZoom] is left out with [zoom].) *)
Definition resetAfterDelete (s : AppState) : AppState :=
  setHasSignedOnce false
    (setError None
      (setCurrentStep upload
        (setSignatureBoxState {| history := []; index := -1 |}
          (setSignaturePosition None
            (setSignatureId None
              (setDocumentId None
                (setUploadedSignature None
                  (setUploadedPdf None
                    (setSignedDocumentId None
                      (setSignedBlob None
                        (setSignedPdfUrl None s))))))))))).

(** [handleDeleteSignedPdf], for the answer given to [window.confirm] and
    the outcome of [apiService.deleteSignedDocument]. *)
Definition handleDeleteSignedPdf
    (confirmed : bool) (deleteSignedDocument : string -> Exn + unit) : M unit :=
  s <- read (fun s => s) ;;
  if falsy (signedDocumentId s) then ret tt
  else if negb confirmed then ret tt
  else
    match signedDocumentId s with
    | None => ret tt
    | Some docId =>
        loadingToastId <- showLoading deletingToast ;;
        tryCatch
          (await (deleteSignedDocument docId) ;;
           update resetAfterDelete ;;
           update (dismiss loadingToastId) ;;
           update (showSuccess deletedToast))
          (fun err =>
             update (dismiss loadingToastId) ;;
             update (showError (orElse (message err) deleteFailedMessage)))
    end.

End Actions.

(** ** Vocabulary of the further properties *)

(** No holes, every snapshot a valid box. *)
Definition snapshots_valid (h : list (option SignatureBox)) : Prop :=
  Forall (fun entry => exists b, entry = Some b /\ valid_box b) h.

(** A drag is in progress and the first page is mounted. *)
Definition dragging (R : PDFPreview.Refs) : bool :=
  match PDFPreview.dragStateRef R, PDFPreview.firstPageContainerRef R with
  | Some _, Some _ => true
  | _, _ => false
  end.

(** ** Further sample sessions *)

Module Further.

(** A click in the middle of the upper half of the 820 by 1160 page, and
    the box it places. *)
Definition click : MouseEvent := mkMouse 410 290 Sample.pageRect.

Definition clickedBox : SignatureBox :=
  mkBox (Num.toFixed4 (PDFPreview.clamp (410 / 820 - defaultWidth / 2) 0 (1 - defaultWidth)))
        (Num.toFixed4 (PDFPreview.clamp (290 / 1160 - defaultHeight / 2) 0 (1 - defaultHeight)))
        (Num.toFixed4 defaultWidth) (Num.toFixed4 defaultHeight).

(** [Sample.collaborators] with the backend unreachable. *)
Definition offline (doc : PDFDocument) : Collaborators :=
  {| PDFDocument_load := PDFDocument_load (Collaborators := Sample.collaborators doc);
     embedPng := embedPng (Collaborators := Sample.collaborators doc);
     embedJpg := embedJpg (Collaborators := Sample.collaborators doc);
     drawImage_throws := drawImage_throws (Collaborators := Sample.collaborators doc);
     save := save (Collaborators := Sample.collaborators doc);
     apiService_signPDF := fun _ _ _ => inl (mkExn "Network Error") |}.

(** [Sample.ready] stamped while the backend is unreachable. *)
Definition signedOffline : App.AppState :=
  App.after (App.handleSignPdf (H := offline Sample.twoPages)) (app Sample.ready).

(** A backend that deletes, and one that refuses. *)
Definition deleteOk : string -> Exn + unit := fun _ => inr tt.
Definition deleteRefused : string -> Exn + unit :=
  fun _ => inl (mkExn "Request failed with status code 500").

(** A JPEG whose file name says PNG and whose type is unknown. *)
Definition misnamedJpeg : File :=
  mkFile "Signature.PNG" "" (repeat Byte.xff 2048).

(** A scanned document whose type the browser did not recognise. *)
Definition scan : File := mkFile "Scan_0001.PDF" "" (repeat Byte.x25 4096).

End Further.

(** The [disabled] prop of the Stamp PDF button. *)
Definition stampButtonDisabled (s : App.AppState) : bool :=
  match App.uploadedPdf s with None => true | Some _ => false end
  || match App.uploadedSignature s with None => true | Some _ => false end
  || match App.currentSignatureBox s with None => true | Some _ => false end
  || App.isSigning s || App.hasSignedOnce s.

(** The box [handlePageClick] builds for a click. *)
Definition clickBoxOf (event : MouseEvent) : SignatureBox :=
  let rect := click_targetRect event in
  let x := (click_clientX event - rect_left rect) / rect_width rect in
  let y := (click_clientY event - rect_top rect) / rect_height rect in
  {| box_x := Num.toFixed4 (PDFPreview.clamp (x - defaultWidth / 2) 0 (1 - defaultWidth));
     box_y := Num.toFixed4 (PDFPreview.clamp (y - defaultHeight / 2) 0 (1 - defaultHeight));
     box_width := Num.toFixed4 defaultWidth;
     box_height := Num.toFixed4 defaultHeight |}.

(** * Properties *)

(** ** Numbers and clamping *)

Lemma ltb_lt (a b : Q) : Num.ltb a b = true <-> a < b.
Proof.
  unfold Num.ltb. rewrite negb_true_iff. split; intro Hab.
  - apply Qnot_le_lt. intro Hle. apply Qle_bool_iff in Hle. congruence.
  - destruct (Qle_bool b a) eqn:E; [|reflexivity].
    apply Qle_bool_iff in E. exfalso. exact (Qlt_not_le _ _ Hab E).
Qed.

Lemma ltb_ge (a b : Q) : Num.ltb a b = false <-> b <= a.
Proof.
  unfold Num.ltb. rewrite negb_false_iff. apply Qle_bool_iff.
Qed.

(** The three branches of [clamp]. *)
Lemma clamp_cases (v lo hi : Q) :
  (v < lo /\ PDFPreview.clamp v lo hi = lo) \/
  (lo <= v /\ hi < v /\ PDFPreview.clamp v lo hi = hi) \/
  (lo <= v /\ v <= hi /\ PDFPreview.clamp v lo hi = v).
Proof.
  unfold PDFPreview.clamp, Num.gtb.
  destruct (Num.ltb v lo) eqn:E1.
  - left. apply ltb_lt in E1. auto.
  - apply ltb_ge in E1. right.
    destruct (Num.ltb hi v) eqn:E2.
    + left. apply ltb_lt in E2. auto.
    + right. apply ltb_ge in E2. auto.
Qed.

Lemma clamp_bounds (v lo hi : Q) :
  lo <= hi -> lo <= PDFPreview.clamp v lo hi /\ PDFPreview.clamp v lo hi <= hi.
Proof.
  intro Hlh.
  destruct (clamp_cases v lo hi) as [[H1 ->]|[[H1 [H2 ->]]|[H1 [H2 ->]]]];
    split; lra.
Qed.

Lemma clamp_above (v lo hi : Q) :
  lo <= hi -> hi < v -> PDFPreview.clamp v lo hi = hi.
Proof.
  intros Hlh Hv.
  destruct (clamp_cases v lo hi) as [[H1 E]|[[H1 [H2 E]]|[H1 [H2 E]]]];
    try exact E; lra.
Qed.

Lemma clamp_inside (v lo hi : Q) :
  lo <= v -> v <= hi -> PDFPreview.clamp v lo hi = v.
Proof.
  intros Hl Hh.
  destruct (clamp_cases v lo hi) as [[H1 E]|[[H1 [H2 E]]|[H1 [H2 E]]]];
    try exact E; lra.
Qed.

#[export] Instance clamp_proper :
  Proper (Qeq ==> Qeq ==> Qeq ==> Qeq) PDFPreview.clamp.
Proof.
  intros v v' Hv lo lo' Hlo hi hi' Hhi.
  destruct (clamp_cases v lo hi) as [[H1 ->]|[[H1 [H2 ->]]|[H1 [H2 ->]]]];
    destruct (clamp_cases v' lo' hi') as [[H1' ->]|[[H1' [H2' ->]]|[H1' [H2' ->]]]];
    lra.
Qed.

(** [toFixed(4)] keeps a value between 0 and a bound with at most four
    decimals between 0 and that bound. *)
Lemma toFixed4_range (v : Q) (k : Z) :
  0 <= v -> v <= inject_Z k / 10000 ->
  0 <= Num.toFixed4 v /\ Num.toFixed4 v <= inject_Z k / 10000.
Proof.
  intros H0 Hk. unfold Num.toFixed4.
  assert (E : Num.ltb v 0 = false) by (apply ltb_ge; exact H0).
  rewrite E. unfold Num.roundHalfUp4.
  set (n := Qfloor (v * 10000 + (1 # 2))).
  assert (Hv : v * 10000 <= inject_Z k).
  { apply (Qmult_le_compat_r _ _ 10000) in Hk; [|lra].
    setoid_replace (inject_Z k / 10000 * 10000) with (inject_Z k) in Hk by field.
    exact Hk. }
  assert (Hlo : (0 <= n)%Z).
  { rewrite <- (Qfloor_Z 0). apply Qfloor_resp_le.
    change (inject_Z 0) with 0. lra. }
  assert (Hhi : (n <= k)%Z).
  { pose proof (Qfloor_le (v * 10000 + (1 # 2))) as Hf. fold n in Hf.
    assert (Hz : inject_Z n < inject_Z (k + 1)).
    { rewrite inject_Z_plus. change (inject_Z 1) with 1. lra. }
    rewrite <- Zlt_Qlt in Hz. lia. }
  rewrite Zle_Qle in Hlo, Hhi. change (inject_Z 0) with 0 in Hlo.
  split.
  - apply Qle_shift_div_l; lra.
  - apply Qle_shift_div_r; [lra|].
    setoid_replace (inject_Z k / 10000 * 10000) with (inject_Z k) by field.
    exact Hhi.
Qed.

(** ** Boxes produced by the handlers *)

Lemma valid_box_in_bounds (b : SignatureBox) : valid_box b -> in_bounds b.
Proof. intros [Hb _]. exact Hb. Qed.

Lemma in_boundsb_spec (b : SignatureBox) : in_boundsb b = true <-> in_bounds b.
Proof.
  unfold in_boundsb, in_bounds.
  rewrite !andb_true_iff, !Qle_bool_iff. tauto.
Qed.

Lemma valid_boxb_spec (b : SignatureBox) : valid_boxb b = true <-> valid_box b.
Proof.
  unfold valid_boxb, valid_box.
  rewrite !andb_true_iff, !Qle_bool_iff, in_boundsb_spec. tauto.
Qed.

Lemma defaultBox_valid : valid_box App.defaultBox.
Proof. apply valid_boxb_spec. vm_compute. reflexivity. Qed.

(** A drag that starts from a valid box proposes a valid box, whatever the
    pointer does. *)
Lemma draggedBox_valid (m : PDFPreview.DragMode) (b : SignatureBox) (dx dy : Q) :
  valid_box b -> valid_box (PDFPreview.draggedBox m b dx dy).
Proof.
  unfold valid_box, in_bounds, minWidth, minHeight.
  intros [[Hx [Hy [Hw Hh]]] [Hmw Hmh]].
  destruct m; cbn [PDFPreview.draggedBox box_x box_y box_width box_height].
  - pose proof (clamp_bounds (box_x b + dx) 0 (1 - box_width b)) as Cx.
    pose proof (clamp_bounds (box_y b + dy) 0 (1 - box_height b)) as Cy.
    destruct Cx as [Cx1 Cx2]; [lra|]. destruct Cy as [Cy1 Cy2]; [lra|].
    repeat split; lra.
  - pose proof (clamp_bounds (box_width b + dx) minWidth (1 - box_x b)) as Cw.
    pose proof (clamp_bounds (box_height b + dy) minHeight (1 - box_y b)) as Ch.
    unfold minWidth, minHeight in *.
    destruct Cw as [Cw1 Cw2]; [lra|]. destruct Ch as [Ch1 Ch2]; [lra|].
    repeat split; lra.
Qed.

(** The box [handlePageClick] creates around a click is valid wherever the
    click lands. *)
Lemma clickedBox_valid (x y : Q) :
  valid_box
    {| box_x := Num.toFixed4 (PDFPreview.clamp (x - defaultWidth / 2) 0 (1 - defaultWidth));
       box_y := Num.toFixed4 (PDFPreview.clamp (y - defaultHeight / 2) 0 (1 - defaultHeight));
       box_width := Num.toFixed4 defaultWidth;
       box_height := Num.toFixed4 defaultHeight |}.
Proof.
  assert (Ew : Num.toFixed4 defaultWidth == 25 # 100) by (vm_compute; reflexivity).
  assert (Eh : Num.toFixed4 defaultHeight == 12 # 100) by (vm_compute; reflexivity).
  destruct (clamp_bounds (x - defaultWidth / 2) 0 (1 - defaultWidth)) as [X1 X2];
    [unfold defaultWidth; lra|].
  destruct (clamp_bounds (y - defaultHeight / 2) 0 (1 - defaultHeight)) as [Y1 Y2];
    [unfold defaultHeight; lra|].
  destruct (toFixed4_range _ 7500 X1) as [Fx1 Fx2].
  { eapply Qle_trans; [exact X2|]. vm_compute. discriminate. }
  destruct (toFixed4_range _ 8800 Y1) as [Fy1 Fy2].
  { eapply Qle_trans; [exact Y2|]. vm_compute. discriminate. }
  assert (K1 : inject_Z 7500 / 10000 == 75 # 100) by (vm_compute; reflexivity).
  assert (K2 : inject_Z 8800 / 10000 == 88 # 100) by (vm_compute; reflexivity).
  unfold valid_box, in_bounds, minWidth, minHeight.
  cbn [box_x box_y box_width box_height].
  rewrite K1 in Fx2. rewrite K2 in Fy2. rewrite Ew, Eh.
  repeat split; lra.
Qed.

(** ** The history array *)

Lemma replace_length {A : Type} (a : list A) (n : nat) (v : A) :
  List.length (JsArray.replace a n v) = List.length a.
Proof.
  revert n. induction a as [|h t IH]; intros [|n]; simpl; auto.
Qed.

Lemma replace_nth_same {A : Type} (a : list A) (n : nat) (v : A) :
  (n < List.length a)%nat -> nth_error (JsArray.replace a n v) n = Some v.
Proof.
  revert n. induction a as [|h t IH]; intros [|n] Hn; simpl in *; try lia; auto.
  apply IH. lia.
Qed.


Lemma slice0_all {A : Type} (a : list A) (e : Z) :
  (Z.of_nat (List.length a) <= e)%Z -> JsArray.slice0 a e = a.
Proof.
  intro He. unfold JsArray.slice0.
  destruct (e <? 0)%Z eqn:E; [apply Z.ltb_lt in E; lia|].
  rewrite Z.min_r by lia. rewrite Nat2Z.id. apply firstn_all.
Qed.

Lemma slice0_prefix {A : Type} (a : list A) (e : Z) :
  (0 <= e)%Z -> JsArray.slice0 a e = firstn (Z.to_nat e) a.
Proof.
  intro He. unfold JsArray.slice0.
  destruct (e <? 0)%Z eqn:E; [apply Z.ltb_lt in E; lia|].
  destruct (Z.le_ge_cases e (Z.of_nat (List.length a))) as [Hle|Hge].
  - rewrite Z.min_l by lia. reflexivity.
  - rewrite Z.min_r by lia. rewrite Nat2Z.id.
    rewrite firstn_all. symmetry. apply firstn_all2. lia.
Qed.

Lemma get_last {A : Type} (a : list (option A)) (v : option A) :
  JsArray.get (a ++ [v]) (Z.of_nat (List.length (a ++ [v])) - 1) = v.
Proof.
  unfold JsArray.get. rewrite length_app. simpl List.length.
  replace (Z.of_nat (List.length a + 1) - 1)%Z with (Z.of_nat (List.length a)) by lia.
  destruct (Z.of_nat (List.length a) <? 0)%Z eqn:E; [apply Z.ltb_lt in E; lia|].
  rewrite Nat2Z.id, nth_error_app2 by lia.
  rewrite Nat.sub_diag. destruct v; reflexivity.
Qed.

Lemma box_eta (b : SignatureBox) :
  {| box_x := box_x b; box_y := box_y b;
     box_width := box_width b; box_height := box_height b |} = b.
Proof. destruct b; reflexivity. Qed.

(** After [updateSignatureBox(box, _)] with a box, that box is the current
    one, whatever the history was. *)
Lemma current_after_update (b : SignatureBox) (pushHistory : bool) (prev : BoxState) :
  currentBoxOf (updateBoxState (Some b) pushHistory prev) = Some b.
Proof.
  unfold updateBoxState. rewrite box_eta. destruct pushHistory.
  - unfold currentBoxOf. cbn [index history].
    set (t := JsArray.slice0 (history prev) (index prev + 1)).
    destruct (Z.of_nat (List.length (t ++ [Some b])) - 1 <? 0)%Z eqn:E.
    + apply Z.ltb_lt in E. rewrite length_app in E. simpl in E. lia.
    + apply get_last.
  - destruct ((List.length (history prev) =? 0)%nat || (index prev <? 0)%Z) eqn:E.
    + reflexivity.
    + apply orb_false_iff in E. destruct E as [E1 E2].
      apply Z.ltb_ge in E2.
      unfold currentBoxOf, JsArray.get, JsArray.set. cbn [index history].
      destruct (index prev <? 0)%Z eqn:E3; [apply Z.ltb_lt in E3; lia|].
      destruct (index prev <? Z.of_nat (List.length (history prev)))%Z eqn:E4.
      * apply Z.ltb_lt in E4. rewrite replace_nth_same by lia. reflexivity.
      * apply Z.ltb_ge in E4.
        rewrite nth_error_app2 by lia.
        rewrite nth_error_app2 by (rewrite repeat_length; lia).
        rewrite repeat_length.
        replace (Z.to_nat (index prev) - List.length (history prev)
                 - (Z.to_nat (index prev) - List.length (history prev)))%nat
          with 0%nat by lia.
        reflexivity.
Qed.

Lemma at_tail_after_update (bo : option SignatureBox) (pushHistory : bool) (prev : BoxState) :
  at_tail prev -> at_tail (updateBoxState bo pushHistory prev).
Proof.
  unfold at_tail, updateBoxState. intro Hprev.
  destruct bo as [b|]; [|reflexivity].
  destruct pushHistory; [reflexivity|].
  destruct ((List.length (history prev) =? 0)%nat || (index prev <? 0)%Z) eqn:E;
    [reflexivity|].
  apply orb_false_iff in E. destruct E as [_ E2]. apply Z.ltb_ge in E2.
  cbn [index history]. unfold JsArray.set.
  destruct (index prev <? 0)%Z eqn:E3; [apply Z.ltb_lt in E3; lia|].
  destruct (index prev <? Z.of_nat (List.length (history prev)))%Z eqn:E4.
  - rewrite replace_length. exact Hprev.
  - apply Z.ltb_ge in E4. lia.
Qed.

(** ** Every preview event keeps the session well formed *)

Lemma session_ok_split (w : World) :
  session_ok w <-> app_ok (app w) /\ drag_ok (refs w).
Proof.
  unfold app_ok, drag_ok. split.
  - intros [H1 H2 H3 H4 H5]. exact (conj (conj H1 (conj H2 (conj H3 H4))) H5).
  - intros [[H1 [H2 [H3 H4]]] H5]. constructor; assumption.
Qed.

Lemma boxState_updateSignatureBox
    (bo : option SignatureBox) (pushHistory : bool) (s : App.AppState) :
  App.signatureBoxState (App.updateSignatureBox bo pushHistory s)
  = updateBoxState bo pushHistory (App.signatureBoxState s).
Proof. reflexivity. Qed.

Lemma applyCallback_ok (s : App.AppState) (c : PDFPreview.Callback) :
  app_ok s -> good_callback c -> app_ok (applyCallback s c).
Proof.
  intros [Ht [Hc [Hu Hp]]] Hg. destruct c as [bo opt|x y|msg]; simpl in *.
  - destruct Hg as [b [-> Hb]].
    unfold app_ok, App.currentSignatureBox.
    rewrite boxState_updateSignatureBox.
    split; [apply at_tail_after_update; exact Ht|].
    split; [|split; assumption].
    exists b. split; [apply current_after_update|exact Hb].
  - exact (conj Ht (conj Hc (conj Hu Hp))).
  - exact (conj Ht (conj Hc (conj Hu Hp))).
Qed.

Lemma fold_applyCallback_ok (callbacks : list PDFPreview.Callback) (s : App.AppState) :
  app_ok s -> Forall good_callback callbacks ->
  app_ok (fold_left applyCallback callbacks s).
Proof.
  revert s. induction callbacks as [|c rest IH]; intros s Hs Hg; simpl.
  - exact Hs.
  - inversion Hg; subst. apply IH; [apply applyCallback_ok|]; assumption.
Qed.

Lemma syncSignaturePosition_ok (s : App.AppState) :
  app_ok s -> app_ok (App.syncSignaturePosition s).
Proof. intro Hs. exact Hs. Qed.

Lemma onEvent_ok (w : World) (e : PDFPreview.Event) :
  session_ok w ->
  drag_ok (fst (PDFPreview.onEvent (propsOf (app w)) (refs w) e)) /\
  Forall good_callback (snd (PDFPreview.onEvent (propsOf (app w)) (refs w) e)).
Proof.
  intros [Ht [b [Hb Hv]] Hu Hp Hd].
  assert (Hover : PDFPreview.overlayRendered (propsOf (app w)) = true).
  { unfold PDFPreview.overlayRendered, propsOf. simpl. rewrite Hb.
    destruct (App.signaturePreviewUrl (app w)); [reflexivity|congruence]. }
  assert (Hdown : forall ev m, drag_ok (PDFPreview.handleSignaturePointerDown
                                          (propsOf (app w)) (refs w) ev m)).
  { intros ev m. unfold PDFPreview.handleSignaturePointerDown, propsOf. simpl.
    rewrite Hp, Hb.
    destruct (PDFPreview.firstPageContainerRef (refs w)) as [rect|]; [|exact Hd].
    intros ds Hdrag. simpl in Hdrag. injection Hdrag as <-. simpl.
    split; [exists m; reflexivity|exists b; auto]. }
  destruct e as [i ev|i ev|i ev|i ev|i ev|rect]; simpl.
  - split; [exact Hd|].
    unfold PDFPreview.handlePageClick, propsOf. simpl. rewrite Hp. simpl.
    destruct (Nat.eqb i 0); simpl.
    + repeat constructor. simpl. eexists. split; [reflexivity|]. apply clickedBox_valid.
    + repeat constructor.
  - rewrite Hover. destruct (PDFPreview.isFirstPage i); simpl;
      split; try exact Hd; try apply Hdown; constructor.
  - rewrite Hover. destruct (PDFPreview.isFirstPage i); simpl;
      split; try exact Hd; try apply Hdown; constructor.
  - rewrite Hover. destruct (PDFPreview.isFirstPage i); simpl;
      split; try exact Hd; try constructor.
    unfold PDFPreview.handleSignaturePointerMove.
    destruct (PDFPreview.dragStateRef (refs w)) as [d|] eqn:Ed; [|constructor].
    destruct (Hd d eq_refl) as [[m Hm] [sb [Hsb Hsv]]]. rewrite Hm, Hsb.
    destruct (PDFPreview.firstPageContainerRef (refs w)); simpl; repeat constructor.
    simpl. eexists. split; [reflexivity|]. apply draggedBox_valid. exact Hsv.
  - rewrite Hover. destruct (PDFPreview.isFirstPage i); simpl;
      [|split; [exact Hd|constructor]].
    unfold PDFPreview.handleSignaturePointerUp.
    assert (Hclear : drag_ok (PDFPreview.clearDrag (refs w))).
    { intros d Hdrag. simpl in Hdrag. discriminate. }
    destruct (PDFPreview.dragStateRef (refs w)) as [d|] eqn:Ed;
      [|split; [exact Hclear|constructor]].
    destruct (Hd d eq_refl) as [[m Hm] _]. rewrite Hm. simpl. rewrite Hb.
    split; [exact Hclear|]. repeat constructor. simpl. exists b. auto.
  - split; [|constructor]. intros d Hdrag. simpl in Hdrag. apply Hd. exact Hdrag.
Qed.

Lemma dispatch_ok (w : World) (e : PDFPreview.Event) :
  session_ok w -> session_ok (dispatch w e).
Proof.
  intro Hw. pose proof (onEvent_ok w e Hw) as [Hd Hg].
  apply session_ok_split in Hw. destruct Hw as [Ha _].
  apply session_ok_split. unfold dispatch.
  destruct (PDFPreview.onEvent (propsOf (app w)) (refs w) e) as [R callbacks].
  simpl in *. split; [|exact Hd].
  pose proof (fold_applyCallback_ok callbacks (app w) Ha Hg) as Hfold.
  destruct (existsb isBoxChange callbacks);
    [apply syncSignaturePosition_ok|]; exact Hfold.
Qed.

Lemma placing_ok (file : File) (sigId : string) (s : App.AppState)
    (rect : option DOMRect) :
  session_ok (placing file sigId s rect).
Proof.
  constructor; simpl.
  - reflexivity.
  - exists App.defaultBox. split; [reflexivity|apply defaultBox_valid].
  - discriminate.
  - reflexivity.
  - intros d Hd. discriminate.
Qed.

Lemma run_ok (events : list PDFPreview.Event) (w : World) :
  session_ok w -> session_ok (run w events).
Proof.
  revert w. induction events as [|e rest IH]; intros w Hw; simpl.
  - exact Hw.
  - apply IH. apply dispatch_ok. exact Hw.
Qed.

Lemma trace_ok (events : list PDFPreview.Event) (w w' : World) :
  session_ok w -> In w' (trace w events) -> session_ok w'.
Proof.
  revert w. induction events as [|e rest IH]; intros w Hw Hin; simpl in Hin.
  - contradiction.
  - destruct Hin as [<-|Hin].
    + apply dispatch_ok. exact Hw.
    + apply (IH (dispatch w e)); [apply dispatch_ok; exact Hw|exact Hin].
Qed.

(** ** Clamping during a drag *)

(** C4.  At every step of a drag, so after each pointer move and not only
    at the commit, the box lies inside the unit square: [x >= 0], [y >= 0],
    [x + width <= 1], [y + height <= 1].  This holds of the current box
    after every event of every event sequence that follows the signature
    upload, and of every box [handleSignaturePointerMove] hands to its
    parent when the drag started from a valid box.  A resize that would
    pass the right edge is clamped to [width = 1 - x]; the box at
    x = 0.8 with width 0.1 grown towards 0.5 gets width 0.2. *)
Theorem drag_clamp_invariant :
  (forall file sigId s rect events w b,
      In w (trace (placing file sigId s rect) events) ->
      App.currentSignatureBox (app w) = Some b ->
      0 <= box_x b /\ 0 <= box_y b /\
      box_x b + box_width b <= 1 /\ box_y b + box_height b <= 1)
  /\ (forall P R event bo opt,
      drag_ok R ->
      In (PDFPreview.SignatureBoxChange bo opt)
         (PDFPreview.handleSignaturePointerMove P R event) ->
      exists b, bo = Some b /\ in_bounds b)
  /\ (forall b dx dy,
      valid_box b -> 1 - box_x b < box_width b + dx ->
      box_width (PDFPreview.draggedBox PDFPreview.resize b dx dy) = 1 - box_x b)
  /\ box_width (PDFPreview.draggedBox PDFPreview.resize Sample.edgeBox (4 # 10) 0)
     == 2 # 10.
Proof.
  split; [|split; [|split]].
  - intros file sigId s rect events w b Hin Hcur.
    pose proof (trace_ok events _ w (placing_ok file sigId s rect) Hin) as Hok.
    destruct (ok_current w Hok) as [b' [Hb' Hv]].
    rewrite Hcur in Hb'. injection Hb' as <-.
    exact (valid_box_in_bounds b Hv).
  - intros P R event bo opt Hd Hin.
    unfold PDFPreview.handleSignaturePointerMove in Hin.
    destruct (PDFPreview.dragStateRef R) as [d|] eqn:Ed; [|contradiction].
    destruct (Hd d Ed) as [[m Hm] [sb [Hsb Hsv]]].
    rewrite Hm, Hsb in Hin.
    destruct (PDFPreview.firstPageContainerRef R) as [rect|]; [|contradiction].
    destruct (PDFPreview.onSignatureBoxChange P); [|contradiction].
    destruct Hin as [Heq|[]]. injection Heq as <- _.
    eexists. split; [reflexivity|].
    apply valid_box_in_bounds, draggedBox_valid. exact Hsv.
  - intros b dx dy [[Hx [Hy [Hw Hh]]] [Hmw Hmh]] Hover.
    cbn [PDFPreview.draggedBox box_width].
    apply clamp_above; [|exact Hover].
    unfold minWidth in *. lra.
  - vm_compute. reflexivity.
Qed.

Lemma drag_clamp_invariant_witness :
  In Scenario.midDrag (trace Sample.ready Sample.moveDrag) /\
  App.currentSignatureBox (app Scenario.midDrag) = Some Scenario.movedBox /\
  (0 <= box_x Scenario.movedBox /\ 0 <= box_y Scenario.movedBox /\
   box_x Scenario.movedBox + box_width Scenario.movedBox <= 1 /\
   box_y Scenario.movedBox + box_height Scenario.movedBox <= 1).
Proof.
  assert (Hin : In Scenario.midDrag (trace Sample.ready Sample.moveDrag)).
  { right. left. reflexivity. }
  assert (Hcur : App.currentSignatureBox (app Scenario.midDrag) = Some Scenario.movedBox).
  { vm_compute. reflexivity. }
  split; [exact Hin|]. split; [exact Hcur|].
  exact (proj1 drag_clamp_invariant
           Sample.pngFile "sig-1"%string
           (App.handlePdfUpload Sample.pdfFile "doc-1" App.initialState)
           (Some Sample.pageRect) Sample.moveDrag
           Scenario.midDrag Scenario.movedBox Hin Hcur).
Defined.

(** ** Truncation of the history *)

Lemma undo_iter (k : nat) (st : BoxState) :
  (0 <= index st)%Z ->
  index (Nat.iter k undo st) = Z.max 0 (index st - Z.of_nat k) /\
  history (Nat.iter k undo st) = history st.
Proof.
  intro H0. induction k as [|k [IHi IHh]].
  - simpl. split; [lia|reflexivity].
  - rewrite Nat.iter_succ. set (prev := Nat.iter k undo st) in *. unfold undo.
    destruct (index prev <=? 0)%Z eqn:E.
    + apply Z.leb_le in E. split; [lia|exact IHh].
    + apply Z.leb_gt in E. cbn [index history]. split; [lia|exact IHh].
Qed.

Lemma redo_at_tail (st : BoxState) : at_tail st -> redo st = st.
Proof.
  unfold at_tail, redo. intro Ht.
  destruct (Z.of_nat (List.length (history st)) - 1 <=? index st)%Z eqn:E;
    [reflexivity|].
  apply Z.leb_gt in E. lia.
Qed.

Lemma redo_iter_at_tail (n : nat) (st : BoxState) :
  at_tail st -> Nat.iter n redo st = st.
Proof.
  intro Ht. induction n as [|n IH]; [reflexivity|].
  rewrite Nat.iter_succ, IH. apply redo_at_tail. exact Ht.
Qed.

(** C5.  A commit made after the index was moved back discards every
    snapshot after the index.  After [k] undos and a commit of [box], the
    history is the first (index + 1) snapshots of the old one, [index] being
    where the undos left it, followed by [box]; the index points at this new
    tail, [box] is the current box, and redo, however often it is called, is
    a no-op: the discarded snapshots cannot be reached again. *)
Theorem commit_after_undo_truncates :
  forall (st : BoxState) (k : nat) (box : SignatureBox),
    (0 <= index st < Z.of_nat (List.length (history st)))%Z ->
    let undone := Nat.iter k undo st in
    let committed := updateBoxState (Some box) true undone in
    index undone = Z.max 0 (index st - Z.of_nat k)
    /\ history committed
       = firstn (Z.to_nat (index undone + 1)) (history st) ++ [Some box]
    /\ List.length (history committed) = Z.to_nat (index undone + 2)
    /\ index committed = (Z.of_nat (List.length (history committed)) - 1)%Z
    /\ currentBoxOf committed = Some box
    /\ forall n, Nat.iter n redo committed = committed.
Proof.
  intros st k box [H0 Hlen] undone committed.
  destruct (undo_iter k st H0) as [Hi Hh]. fold undone in Hi, Hh.
  assert (Hhist : history committed
                  = firstn (Z.to_nat (index undone + 1)) (history st) ++ [Some box]).
  { unfold committed, updateBoxState. rewrite box_eta. cbn [history].
    rewrite slice0_prefix by lia. rewrite Hh. reflexivity. }
  assert (Htail : at_tail committed).
  { unfold at_tail, committed, updateBoxState. reflexivity. }
  split; [exact Hi|]. split; [exact Hhist|]. split; [|split; [exact Htail|split]].
  - rewrite Hhist, length_app, firstn_length_le by lia. simpl. lia.
  - apply current_after_update.
  - intro n. apply redo_iter_at_tail. exact Htail.
Qed.

Lemma commit_after_undo_truncates_witness :
  (0 <= index Scenario.threeSnapshots
   < Z.of_nat (List.length (history Scenario.threeSnapshots)))%Z /\
  history (updateBoxState (Some Sample.edgeBox) true
             (Nat.iter 2 undo Scenario.threeSnapshots))
  = [Some App.defaultBox; Some Sample.edgeBox].
Proof.
  assert (Hst : (0 <= index Scenario.threeSnapshots
                 < Z.of_nat (List.length (history Scenario.threeSnapshots)))%Z)
    by (simpl; lia).
  split; [exact Hst|].
  exact (proj1 (proj2 (commit_after_undo_truncates
                         Scenario.threeSnapshots 2 Sample.edgeBox Hst))).
Defined.

(** ** What a drag does to the history *)

Lemma boxState_fold (callbacks : list PDFPreview.Callback) (s : App.AppState) :
  App.signatureBoxState (fold_left applyCallback callbacks s)
  = fold_left stepBox callbacks (App.signatureBoxState s).
Proof.
  revert s. induction callbacks as [|c rest IH]; intro s; simpl; [reflexivity|].
  rewrite IH. destruct c; reflexivity.
Qed.

Lemma boxState_dispatch (w : World) (e : PDFPreview.Event) :
  boxStateOf (dispatch w e)
  = fold_left stepBox (snd (PDFPreview.onEvent (propsOf (app w)) (refs w) e))
              (boxStateOf w).
Proof.
  unfold boxStateOf, dispatch.
  destruct (PDFPreview.onEvent (propsOf (app w)) (refs w) e) as [R callbacks].
  simpl. destruct (existsb isBoxChange callbacks); apply boxState_fold.
Qed.

(** Where a current box exists, the index is inside the array. *)
Lemma current_index_range (st : BoxState) (b : SignatureBox) :
  currentBoxOf st = Some b ->
  (0 <= index st < Z.of_nat (List.length (history st)))%Z.
Proof.
  unfold currentBoxOf, JsArray.get. intro Hc.
  destruct (index st <? 0)%Z eqn:E; [discriminate|].
  apply Z.ltb_ge in E.
  destruct (nth_error (history st) (Z.to_nat (index st))) eqn:En; [|discriminate].
  assert (Hlt : (Z.to_nat (index st) < List.length (history st))%nat).
  { apply nth_error_Some. congruence. }
  lia.
Qed.

(** An update without [pushHistory] overwrites the current snapshot. *)
Lemma update_in_place (b db : SignatureBox) (st : BoxState) :
  currentBoxOf st = Some b ->
  history (updateBoxState (Some db) false st)
  = JsArray.replace (history st) (Z.to_nat (index st)) (Some db)
  /\ index (updateBoxState (Some db) false st) = index st.
Proof.
  intro Hc. pose proof (current_index_range st b Hc) as [H0 Hlen].
  unfold updateBoxState. rewrite box_eta.
  assert (E1 : (List.length (history st) =? 0)%nat = false)
    by (apply Nat.eqb_neq; lia).
  assert (E2 : (index st <? 0)%Z = false) by (apply Z.ltb_ge; lia).
  rewrite E1, E2. cbn [orb history index]. unfold JsArray.set.
  rewrite E2.
  assert (E3 : (index st <? Z.of_nat (List.length (history st)))%Z = true)
    by (apply Z.ltb_lt; lia).
  rewrite E3. split; reflexivity.
Qed.


Lemma up_callbacks (w : World) (i : nat) (ev : PointerEvent) (b : SignatureBox) :
  session_ok w ->
  App.currentSignatureBox (app w) = Some b ->
  snd (PDFPreview.onEvent (propsOf (app w)) (refs w) (PDFPreview.PointerUp i ev))
  = if PDFPreview.isFirstPage i &&
       match PDFPreview.dragStateRef (refs w) with Some _ => true | None => false end
    then [PDFPreview.SignatureBoxChange (Some b) (Some true)]
    else [].
Proof.
  intros [Ht _ Hu Hp Hd] Hb.
  assert (Hover : PDFPreview.overlayRendered (propsOf (app w)) = true).
  { unfold PDFPreview.overlayRendered, propsOf. simpl. rewrite Hb.
    destruct (App.signaturePreviewUrl (app w)); [reflexivity|congruence]. }
  simpl. rewrite Hover. destruct (PDFPreview.isFirstPage i); simpl; [|reflexivity].
  unfold PDFPreview.handleSignaturePointerUp.
  destruct (PDFPreview.dragStateRef (refs w)) as [d|] eqn:Ed; [|reflexivity].
  destruct (Hd d eq_refl) as [[m Hm] _]. rewrite Hm. simpl. rewrite Hb. reflexivity.
Qed.




(** ** A move drag from the default box *)

Lemma overlay_of_session (w : World) :
  session_ok w -> PDFPreview.overlayRendered (propsOf (app w)) = true.
Proof.
  intros [_ [b [Hb _]] Hu _ _].
  unfold PDFPreview.overlayRendered, propsOf. simpl. rewrite Hb.
  destruct (App.signaturePreviewUrl (app w)); [reflexivity|congruence].
Qed.

Lemma refs_dispatch (w : World) (e : PDFPreview.Event) :
  refs (dispatch w e) = fst (PDFPreview.onEvent (propsOf (app w)) (refs w) e).
Proof.
  unfold dispatch.
  destruct (PDFPreview.onEvent (propsOf (app w)) (refs w) e). reflexivity.
Qed.

(** Pointer down on the box of the first page starts a move drag from the
    current box. *)
Lemma down_on_box (w : World) (ev : PointerEvent) (b : SignatureBox) (rect : DOMRect) :
  session_ok w ->
  App.currentSignatureBox (app w) = Some b ->
  PDFPreview.firstPageContainerRef (refs w) = Some rect ->
  boxStateOf (dispatch w (PDFPreview.PointerDownOnBox 0 ev)) = boxStateOf w /\
  refs (dispatch w (PDFPreview.PointerDownOnBox 0 ev))
  = {| PDFPreview.dragStateRef :=
         Some (PDFPreview.mkDrag (Some PDFPreview.move) (Some (ev_pointerId ev))
                                 (ev_clientX ev) (ev_clientY ev) (Some b));
       PDFPreview.firstPageContainerRef := Some rect |}.
Proof.
  intros Hok Hb Hrect. pose proof (overlay_of_session w Hok) as Hover.
  rewrite boxState_dispatch, refs_dispatch.
  cbn [PDFPreview.onEvent]. rewrite Hover. cbn [PDFPreview.isFirstPage Nat.eqb andb fst snd].
  split; [reflexivity|].
  unfold PDFPreview.handleSignaturePointerDown.
  replace (PDFPreview.placementMode (propsOf (app w))) with true
    by (symmetry; exact (ok_placement w Hok)).
  replace (PDFPreview.signatureBox (propsOf (app w))) with (Some b)
    by (symmetry; exact Hb).
  rewrite Hrect. reflexivity.
Qed.

(** A pointer move on the first page during a drag proposes the dragged box
    without [pushHistory]. *)
Lemma move_during_drag (w : World) (ev : PointerEvent) (d : PDFPreview.DragState)
    (m : PDFPreview.DragMode) (sb : SignatureBox) (rect : DOMRect) :
  session_ok w ->
  PDFPreview.dragStateRef (refs w) = Some d ->
  PDFPreview.mode d = Some m ->
  PDFPreview.startBox d = Some sb ->
  PDFPreview.firstPageContainerRef (refs w) = Some rect ->
  boxStateOf (dispatch w (PDFPreview.PointerMove 0 ev))
  = updateBoxState
      (Some (PDFPreview.draggedBox m sb
               ((ev_clientX ev - PDFPreview.startX d) / rect_width rect)
               ((ev_clientY ev - PDFPreview.startY d) / rect_height rect)))
      false (boxStateOf w)
  /\ refs (dispatch w (PDFPreview.PointerMove 0 ev)) = refs w.
Proof.
  intros Hok Hd Hm Hsb Hrect. pose proof (overlay_of_session w Hok) as Hover.
  rewrite boxState_dispatch, refs_dispatch.
  cbn [PDFPreview.onEvent]. rewrite Hover. cbn [PDFPreview.isFirstPage Nat.eqb andb fst snd].
  split; [|reflexivity].
  unfold PDFPreview.handleSignaturePointerMove.
  rewrite Hd, Hm, Hsb, Hrect. reflexivity.
Qed.

(** C7.  The default box is {x: 0.375, y: 0.44, width: 0.25, height: 0.12}.
    From the session a signature upload leaves, a move drag (pointer down on
    the box, one move, pointer up, all on the first page) whose normalized
    delta is (0.1, -0.05) ends with the current box
    {x: 0.475, y: 0.39, width: 0.25, height: 0.12} and a history of
    length 2, the index at its tail. *)
Theorem default_box_move_drag :
  forall file sigId s rect down mv up,
    (ev_clientX mv - ev_clientX down) / rect_width rect == 1 # 10 ->
    (ev_clientY mv - ev_clientY down) / rect_height rect == - (5 # 100) ->
    let w := run (placing file sigId s (Some rect))
                 [PDFPreview.PointerDownOnBox 0 down;
                  PDFPreview.PointerMove 0 mv;
                  PDFPreview.PointerUp 0 up] in
    App.currentSignatureBox (app (placing file sigId s (Some rect)))
      = Some App.defaultBox
    /\ box_eq App.defaultBox (mkBox (375 # 1000) (44 # 100) (25 # 100) (12 # 100))
    /\ exists b,
         App.currentSignatureBox (app w) = Some b
         /\ box_eq b (mkBox (475 # 1000) (39 # 100) (25 # 100) (12 # 100))
         /\ List.length (history (boxStateOf w)) = 2%nat
         /\ index (boxStateOf w) = 1%Z.
Proof.
  intros file sigId s rect down mv up Hdx Hdy.
  set (w0 := placing file sigId s (Some rect)).
  cbn [run fold_left].
  set (w1 := dispatch w0 (PDFPreview.PointerDownOnBox 0 down)).
  set (w2 := dispatch w1 (PDFPreview.PointerMove 0 mv)).
  set (w3 := dispatch w2 (PDFPreview.PointerUp 0 up)).
  assert (Hok0 : session_ok w0) by apply placing_ok.
  assert (Hcur0 : App.currentSignatureBox (app w0) = Some App.defaultBox)
    by reflexivity.
  assert (Hst0 : boxStateOf w0 = {| history := [Some App.defaultBox]; index := 0 |})
    by reflexivity.
  destruct (down_on_box w0 down App.defaultBox rect Hok0 Hcur0 eq_refl)
    as [Hst1 Hrefs1].
  fold w1 in Hst1, Hrefs1.
  assert (Hok1 : session_ok w1) by (apply dispatch_ok; exact Hok0).
  set (dx := (ev_clientX mv - ev_clientX down) / rect_width rect) in *.
  set (dy := (ev_clientY mv - ev_clientY down) / rect_height rect) in *.
  set (db := PDFPreview.draggedBox PDFPreview.move App.defaultBox dx dy).
  assert (Hmove : boxStateOf w2 = updateBoxState (Some db) false (boxStateOf w1)
                  /\ refs w2 = refs w1).
  { set (d := PDFPreview.mkDrag (Some PDFPreview.move) (Some (ev_pointerId down))
                                 (ev_clientX down) (ev_clientY down)
                                 (Some App.defaultBox)) in Hrefs1.
    assert (Hd : PDFPreview.dragStateRef (refs w1) = Some d)
      by (rewrite Hrefs1; reflexivity).
    assert (Hr : PDFPreview.firstPageContainerRef (refs w1) = Some rect)
      by (rewrite Hrefs1; reflexivity).
    exact (move_during_drag w1 mv d PDFPreview.move App.defaultBox rect
             Hok1 Hd eq_refl eq_refl Hr). }
  destruct Hmove as [Hst2 Hrefs2].
  assert (Hok2 : session_ok w2) by (apply dispatch_ok; exact Hok1).
  assert (Hcur2 : App.currentSignatureBox (app w2) = Some db).
  { unfold App.currentSignatureBox. fold (boxStateOf w2). rewrite Hst2.
    apply current_after_update. }
  assert (Edef : box_eq App.defaultBox
                   (mkBox (375 # 1000) (44 # 100) (25 # 100) (12 # 100))).
  { repeat split; vm_compute; reflexivity. }
  assert (Edb : box_eq db (mkBox (475 # 1000) (39 # 100) (25 # 100) (12 # 100))).
  { destruct Edef as [Ex [Ey [Ew Eh]]]. cbn [box_x box_y box_width box_height] in *.
    unfold db, box_eq.
    cbn [PDFPreview.draggedBox box_x box_y box_width box_height].
    rewrite (clamp_inside (box_x App.defaultBox + dx)) by lra.
    rewrite (clamp_inside (box_y App.defaultBox + dy)) by lra.
    repeat split; lra. }
  clearbody db.
  assert (Hst3 : boxStateOf w3 = {| history := [Some db; Some db]; index := 1 |}).
  { unfold w3. rewrite boxState_dispatch, (up_callbacks w2 0 up db Hok2 Hcur2).
    rewrite Hrefs2, Hrefs1. cbn [PDFPreview.isFirstPage Nat.eqb andb
                                  PDFPreview.dragStateRef fold_left stepBox].
    rewrite Hst2, Hst1, Hst0. destruct db. reflexivity. }
  split; [exact Hcur0|]. split; [exact Edef|].
  exists db. unfold App.currentSignatureBox. fold (boxStateOf w3). rewrite Hst3.
  split; [reflexivity|]. split; [exact Edb|]. split; reflexivity.
Qed.

Lemma default_box_move_drag_witness :
  (482 - 400) / rect_width Sample.pageRect == 1 # 10 /\
  (542 - 600) / rect_height Sample.pageRect == - (5 # 100) /\
  List.length (history (boxStateOf (run Sample.ready Sample.moveDrag))) = 2%nat.
Proof.
  assert (Hdx : (482 - 400) / rect_width Sample.pageRect == 1 # 10)
    by (vm_compute; reflexivity).
  assert (Hdy : (542 - 600) / rect_height Sample.pageRect == - (5 # 100))
    by (vm_compute; reflexivity).
  split; [exact Hdx|]. split; [exact Hdy|].
  destruct (default_box_move_drag
              Sample.pngFile "sig-1"%string
              (App.handlePdfUpload Sample.pdfFile "doc-1" App.initialState)
              Sample.pageRect (mkPointer 400 600 1) (mkPointer 482 542 1)
              (mkPointer 482 542 1) Hdx Hdy)
    as [_ [_ [b [_ [_ [Hlen _]]]]]].
  exact Hlen.
Defined.

(** ** Stamping *)

Lemma stampPage_ok `{Collaborators}
    (image : PDFImage) (box : SignatureBox) (page page' : PDFPage) :
  App.stampPage image box page = inr page' -> stampedWith image box page page'.
Proof.
  unfold App.stampPage, drawImage. intro Hs.
  destruct (drawImage_throws _ _ _); [discriminate|].
  injection Hs as <-. repeat split.
Qed.

Lemma stampPages_ok `{Collaborators}
    (image : PDFImage) (box : SignatureBox) (pages pages' : list PDFPage) :
  App.stampPages image box pages = inr pages' ->
  Forall2 (stampedWith image box) pages pages'.
Proof.
  revert pages'. induction pages as [|page rest IH]; intros pages' Hs; simpl in Hs.
  - injection Hs as <-. constructor.
  - destruct (App.stampPage image box page) as [e|page'] eqn:Ep; [discriminate|].
    destruct (App.stampPages image box rest) as [e|rest'] eqn:Er; [discriminate|].
    injection Hs as <-. constructor; [apply stampPage_ok; exact Ep|apply IH; reflexivity].
Qed.

(** Dividing the page-space rectangle by the page's own size gives the box
    back. *)
Lemma normalizedRect_pageSpaceRect (box : SignatureBox) (pageWidth pageHeight : Q) :
  0 < pageWidth -> 0 < pageHeight ->
  box_eq (normalizedRect (pageSpaceRect box pageWidth pageHeight) pageWidth pageHeight)
         box.
Proof.
  intros Hw Hh. unfold box_eq, normalizedRect, pageSpaceRect.
  cbn [box_x box_y box_width box_height opt_x opt_y opt_width opt_height].
  repeat split; field; lra.
Qed.

(** C1.  When the loop of [handleSignPdf] runs over the pages, every page
    gets exactly one more draw, of the embedded image, at x = box.x *
    pageWidth, width = box.width * pageWidth, height = box.height *
    pageHeight and y = pageHeight - box.y * pageHeight - box.height *
    pageHeight, computed from that page's own size; and on every page of
    positive size that rectangle, divided by the page's own dimensions (y
    measured from the top), is the box again, so two pages of different
    sizes carry the same normalized box. *)
Theorem stamp_rectangle_per_page :
  forall (L : Collaborators) image box pages pages',
    App.stampPages image box pages = inr pages' ->
    Forall2 (drawnAsPlaced image box) pages pages'.
Proof.
  intros L image box pages pages' Hs.
  apply stampPages_ok in Hs.
  induction Hs as [|page page' rest rest' [Hw [Hh Hc]] _ IH]; constructor; [|exact IH].
  split; [exact Hw|]. split; [exact Hh|].
  exists (pageSpaceRect box (page_width page) (page_height page)).
  split; [exact Hc|]. do 4 (split; [reflexivity|]).
  intros Hpw Hph. apply normalizedRect_pageSpaceRect; assumption.
Qed.

Lemma stamp_rectangle_per_page_witness :
  App.stampPages (H := Sample.collaborators Sample.twoPages)
    (mkImage 1) App.defaultBox (doc_pages Sample.twoPages)
  = inr Scenario.stampedTwoPages
  /\ Forall2 (drawnAsPlaced (mkImage 1) App.defaultBox)
             (doc_pages Sample.twoPages) Scenario.stampedTwoPages.
Proof.
  assert (Hs : App.stampPages (H := Sample.collaborators Sample.twoPages)
                 (mkImage 1) App.defaultBox (doc_pages Sample.twoPages)
               = inr Scenario.stampedTwoPages) by reflexivity.
  split; [exact Hs|].
  exact (stamp_rectangle_per_page (Sample.collaborators Sample.twoPages)
           (mkImage 1) App.defaultBox (doc_pages Sample.twoPages)
           Scenario.stampedTwoPages Hs).
Defined.

(** The A4 page of the specification's scenario: the default box is drawn at
    x = 223.125, y = 370.48, 148.75 wide and 101.04 high. *)
Example a4_rectangle :
  let r := pageSpaceRect App.defaultBox 595 842 in
  opt_x r == 223125 # 1000 /\ opt_y r == 37048 # 100 /\
  opt_width r == 14875 # 100 /\ opt_height r == 10104 # 100.
Proof. repeat split; vm_compute; reflexivity. Qed.

(** ** [handleSignPdf] *)

Arguments currentBoxOf : simpl never.

Lemma falsy_nonempty (str : string) : str <> ""%string -> App.falsy (Some str) = false.
Proof. intro Hne. simpl. apply String.eqb_neq. exact Hne. Qed.

(** Opens [handleSignPdf] on a state whose guards pass, up to the first
    stage of the [try] block. *)
Ltac open_ready_sign Hready :=
  let Hs := fresh "Hs" in let Hd := fresh "Hd" in let Hdne := fresh "Hdne" in
  let Hg := fresh "Hg" in let Hgne := fresh "Hgne" in let Hsf := fresh "Hsf" in
  let Hpf := fresh "Hpf" in let Hb := fresh "Hb" in
  destruct Hready as (Hs & Hd & Hdne & Hg & Hgne & Hsf & Hpf & Hb);
  unfold App.after, App.handleSignPdf, App.bind, App.read;
  rewrite Hs, Hd, Hg, Hsf, Hpf, Hb;
  rewrite (falsy_nonempty _ Hdne), (falsy_nonempty _ Hgne);
  cbn [orb];
  unfold App.currentSignatureBox in Hb;
  unfold App.signTryBlock, App.signCatchBlock;
  unfold App.bind, App.update, App.showLoading, App.tryFinally, App.tryCatch,
    App.await, App.read, App.ret, App.throw, App.currentSignatureBox.

(** A stamp that fails leaves the outputs alone and reports the message. *)
Lemma sign_failure `{Collaborators} (s : App.AppState) (docId sigId : string)
    (sigFile pdfFile : File) (box : SignatureBox) (e : Exn) :
  readyToSign s docId sigId sigFile pdfFile box ->
  stamp pdfFile sigFile box = inl e ->
  App.signedBlob (App.after App.handleSignPdf s) = App.signedBlob s /\
  App.signedPdfUrl (App.after App.handleSignPdf s) = App.signedPdfUrl s /\
  App.error (App.after App.handleSignPdf s)
  = Some (App.orElse (message e) App.signFailedMessage) /\
  App.currentStep (App.after App.handleSignPdf s) = App.preview /\
  App.isSigning (App.after App.handleSignPdf s) = false.
Proof.
  intros Hready Hstamp. unfold stamp, embedSignature in Hstamp.
  open_ready_sign Hready.
  destruct (PDFDocument_load (file_bytes pdfFile)) as [e1|pdfDoc].
  { injection Hstamp as <-. cbn. auto. }
  destruct (if App.includes (file_type sigFile) "png"
            then embedPng pdfDoc (file_bytes sigFile)
            else embedJpg pdfDoc (file_bytes sigFile)) as [e2|sigImage].
  { injection Hstamp as <-. cbn. auto. }
  cbn. rewrite Hb.
  destruct (App.stampPages sigImage box (doc_pages pdfDoc)) as [e3|pages].
  { injection Hstamp as <-. cbn. auto. }
  rewrite Hstamp. cbn. auto.
Qed.

(** A stamp that succeeds delivers the serialised document. *)
Lemma sign_success `{Collaborators} (s : App.AppState) (docId sigId : string)
    (sigFile pdfFile : File) (box : SignatureBox) (bytes : Bytes) :
  readyToSign s docId sigId sigFile pdfFile box ->
  stamp pdfFile sigFile box = inr bytes ->
  App.signedBlob (App.after App.handleSignPdf s) = Some bytes /\
  App.signedPdfUrl (App.after App.handleSignPdf s) = Some bytes /\
  App.error (App.after App.handleSignPdf s) = None /\
  App.currentStep (App.after App.handleSignPdf s) = App.complete /\
  App.isSigning (App.after App.handleSignPdf s) = false.
Proof.
  intros Hready Hstamp. unfold stamp, embedSignature in Hstamp.
  open_ready_sign Hready.
  destruct (PDFDocument_load (file_bytes pdfFile)) as [e1|pdfDoc]; [discriminate|].
  destruct (if App.includes (file_type sigFile) "png"
            then embedPng pdfDoc (file_bytes sigFile)
            else embedJpg pdfDoc (file_bytes sigFile)) as [e2|sigImage];
    [discriminate|].
  cbn. rewrite Hb.
  destruct (App.stampPages sigImage box (doc_pages pdfDoc)) as [e3|pages];
    [discriminate|].
  rewrite Hstamp. cbn.
  destruct (apiService_signPDF docId sigId (App.signaturePosition s)); cbn; auto.
Qed.

(** The stages behind the result of [stamp]. *)
Lemma stamp_failure_stage `{Collaborators}
    (pdfFile sigFile : File) (box : SignatureBox) (e : Exn) :
  stamp pdfFile sigFile box = inl e <-> stageFailure pdfFile sigFile box e.
Proof.
  unfold stamp. split.
  - intro Hs.
    destruct (PDFDocument_load (file_bytes pdfFile)) as [e1|pdfDoc] eqn:E1.
    { injection Hs as <-. apply ParseFails. exact E1. }
    destruct (embedSignature pdfDoc sigFile) as [e2|sigImage] eqn:E2.
    { injection Hs as <-. eapply EmbedFails; eassumption. }
    destruct (App.stampPages sigImage box (doc_pages pdfDoc)) as [e3|pages] eqn:E3.
    { injection Hs as <-. eapply DrawFails; eassumption. }
    eapply SerializeFails; eassumption.
  - intros [e' E1|pdfDoc e' E1 E2|pdfDoc sigImage e' E1 E2 E3
            |pdfDoc sigImage pages e' E1 E2 E3 E4].
    + rewrite E1. reflexivity.
    + rewrite E1, E2. reflexivity.
    + rewrite E1, E2, E3. reflexivity.
    + rewrite E1, E2, E3. exact E4.
Qed.

Lemma stamp_success_stages `{Collaborators}
    (pdfFile sigFile : File) (box : SignatureBox) (bytes : Bytes) :
  stamp pdfFile sigFile box = inr bytes -> stampedAll pdfFile sigFile box bytes.
Proof.
  unfold stamp, stampedAll. intro Hs.
  destruct (PDFDocument_load (file_bytes pdfFile)) as [e1|pdfDoc] eqn:E1;
    [discriminate|].
  destruct (embedSignature pdfDoc sigFile) as [e2|sigImage] eqn:E2; [discriminate|].
  destruct (App.stampPages sigImage box (doc_pages pdfDoc)) as [e3|pages] eqn:E3;
    [discriminate|].
  exists pdfDoc, sigImage, pages.
  split; [reflexivity|]. split; [exact E2|].
  split; [apply stampPages_ok; exact E3|exact Hs].
Qed.

(** When a guard of [handleSignPdf] stops the call, the state is untouched
    or only the missing-uploads message is set and shown. *)
Lemma sign_guards `{Collaborators} (s : App.AppState) :
  (exists docId sigId sigFile pdfFile box,
     readyToSign s docId sigId sigFile pdfFile box)
  \/ App.after App.handleSignPdf s = s
  \/ App.after App.handleSignPdf s
     = App.showError App.missingUploadsMessage
         (App.setError (Some App.missingUploadsMessage) s).
Proof.
  unfold App.after, App.handleSignPdf, App.bind, App.read.
  destruct (App.hasSignedOnce s) eqn:Hs; [right; left; reflexivity|].
  destruct (App.documentId s) as [docId|] eqn:Hd; [|right; right; reflexivity].
  destruct (App.signatureId s) as [sigId|] eqn:Hg; [|right; right; reflexivity].
  destruct (App.uploadedSignature s) as [sigFile|] eqn:Hsf; [|right; right; reflexivity].
  destruct (App.uploadedPdf s) as [pdfFile|] eqn:Hpf; [|right; right; reflexivity].
  destruct (App.currentSignatureBox s) as [box|] eqn:Hb; [|right; right; reflexivity].
  destruct (App.falsy (Some docId)) eqn:Fd; [right; right; reflexivity|].
  destruct (App.falsy (Some sigId)) eqn:Fg; [right; right; reflexivity|].
  left. exists docId, sigId, sigFile, pdfFile, box.
  simpl in Fd, Fg. apply String.eqb_neq in Fd, Fg.
  unfold readyToSign. auto 10.
Qed.

(** No path through [handleSignPdf] writes [hasSignedOnce]. *)
Lemma sign_keeps_hasSignedOnce `{Collaborators} (s : App.AppState) :
  App.hasSignedOnce (App.after App.handleSignPdf s) = App.hasSignedOnce s.
Proof.
  destruct (sign_guards s) as [(docId & sigId & sigFile & pdfFile & box & Hr)|[->| ->]];
    [|reflexivity|reflexivity].
  open_ready_sign Hr.
  destruct (PDFDocument_load (file_bytes pdfFile)) as [e1|pdfDoc]; [cbn; auto|].
  destruct (if App.includes (file_type sigFile) "png"
            then embedPng pdfDoc (file_bytes sigFile)
            else embedJpg pdfDoc (file_bytes sigFile)) as [e2|sigImage]; [cbn; auto|].
  cbn. rewrite Hb.
  destruct (App.stampPages sigImage box (doc_pages pdfDoc)) as [e3|pages]; [cbn; auto|].
  destruct (save (mkDoc pages)) as [e4|bytes]; [cbn; auto|]. cbn.
  destruct (apiService_signPDF docId sigId (App.signaturePosition s)); cbn; auto.
Qed.

(** ** All or nothing *)

(** C3.  A call of [handleSignPdf] either delivers no byte buffer (the
    signed blob and its URL are what they were before the call), or every
    stage succeeded: the document parsed, the image embedded, every page
    got the stamp, serialisation succeeded, and the buffer delivered is that
    serialisation.  In particular, when the guards pass and a stage fails
    (parse, embed, the draw on some page, or serialise), no buffer is
    delivered, the message of the thrown value is reported and the step goes
    back to the preview. *)
Theorem stamp_all_or_nothing :
  forall (L : Collaborators) (s : App.AppState),
    ((App.signedBlob (App.after App.handleSignPdf s) = App.signedBlob s /\
      App.signedPdfUrl (App.after App.handleSignPdf s) = App.signedPdfUrl s)
     \/ exists docId sigId sigFile pdfFile box bytes,
          readyToSign s docId sigId sigFile pdfFile box /\
          stampedAll pdfFile sigFile box bytes /\
          App.signedBlob (App.after App.handleSignPdf s) = Some bytes /\
          App.signedPdfUrl (App.after App.handleSignPdf s) = Some bytes)
    /\ forall docId sigId sigFile pdfFile box e,
         readyToSign s docId sigId sigFile pdfFile box ->
         stageFailure pdfFile sigFile box e ->
         App.signedBlob (App.after App.handleSignPdf s) = App.signedBlob s /\
         App.signedPdfUrl (App.after App.handleSignPdf s) = App.signedPdfUrl s /\
         App.error (App.after App.handleSignPdf s)
         = Some (App.orElse (message e) App.signFailedMessage) /\
         App.currentStep (App.after App.handleSignPdf s) = App.preview.
Proof.
  intros L s. split.
  - destruct (sign_guards s) as [(docId & sigId & sigFile & pdfFile & box & Hr)|[->| ->]].
    + destruct (stamp pdfFile sigFile box) as [e|bytes] eqn:Es.
      * left. destruct (sign_failure s _ _ _ _ _ e Hr Es) as (H1 & H2 & _).
        split; assumption.
      * right. exists docId, sigId, sigFile, pdfFile, box, bytes.
        destruct (sign_success s _ _ _ _ _ bytes Hr Es) as (H1 & H2 & _).
        split; [exact Hr|]. split; [apply stamp_success_stages; exact Es|].
        split; assumption.
    + left. split; reflexivity.
    + left. split; reflexivity.
  - intros docId sigId sigFile pdfFile box e Hr Hf.
    apply stamp_failure_stage in Hf.
    destruct (sign_failure s _ _ _ _ _ e Hr Hf) as (H1 & H2 & H3 & H4 & _).
    auto.
Qed.

Lemma readyWithGif_ready :
  readyToSign (app Stamped.readyWithGif) "doc-1" "sig-1"
              Sample.gifFile Sample.pdfFile App.defaultBox.
Proof.
  unfold readyToSign.
  split; [reflexivity|]. split; [reflexivity|]. split; [discriminate|].
  split; [reflexivity|]. split; [discriminate|].
  split; [reflexivity|]. split; reflexivity.
Defined.

Lemma stamp_all_or_nothing_witness :
  readyToSign (app Stamped.readyWithGif) "doc-1" "sig-1"
              Sample.gifFile Sample.pdfFile App.defaultBox /\
  stageFailure (H := Sample.collaborators Sample.twoPages)
    Sample.pdfFile Sample.gifFile App.defaultBox
    (mkExn "The input is not a PNG file!") /\
  App.signedBlob
    (App.after (App.handleSignPdf (H := Sample.collaborators Sample.twoPages))
               (app Stamped.readyWithGif))
  = App.signedBlob (app Stamped.readyWithGif).
Proof.
  assert (Hf : stageFailure (H := Sample.collaborators Sample.twoPages)
                 Sample.pdfFile Sample.gifFile App.defaultBox
                 (mkExn "The input is not a PNG file!")).
  { apply (EmbedFails (H := Sample.collaborators Sample.twoPages)
             _ _ _ Sample.twoPages); reflexivity. }
  split; [exact readyWithGif_ready|]. split; [exact Hf|].
  exact (proj1 (proj2 (stamp_all_or_nothing
                         (Sample.collaborators Sample.twoPages)
                         (app Stamped.readyWithGif))
                  "doc-1"%string "sig-1"%string Sample.gifFile Sample.pdfFile
                  App.defaultBox _ readyWithGif_ready Hf)).
Defined.

(** ** Images that are neither PNG nor JPEG *)

(** C8.  When the guards pass and the signature bytes are neither a PNG nor
    a JPEG (neither decoder accepts them), the stamp fails: no buffer is
    delivered, the step goes back to the preview, and an error is reported;
    when the document parses, that error is the one thrown by the embed
    step.  The embed step has these two decoders and no other. *)
Theorem unsupported_image_fails :
  forall (L : Collaborators) s docId sigId sigFile pdfFile box,
    readyToSign s docId sigId sigFile pdfFile box ->
    unsupportedImage (file_bytes sigFile) ->
    App.signedBlob (App.after App.handleSignPdf s) = App.signedBlob s /\
    App.signedPdfUrl (App.after App.handleSignPdf s) = App.signedPdfUrl s /\
    App.currentStep (App.after App.handleSignPdf s) = App.preview /\
    exists e,
      stamp pdfFile sigFile box = inl e /\
      App.error (App.after App.handleSignPdf s)
      = Some (App.orElse (message e) App.signFailedMessage) /\
      forall pdfDoc,
        PDFDocument_load (file_bytes pdfFile) = inr pdfDoc ->
        embedSignature pdfDoc sigFile = inl e /\
        (embedPng pdfDoc (file_bytes sigFile) = inl e \/
         embedJpg pdfDoc (file_bytes sigFile) = inl e).
Proof.
  intros L s docId sigId sigFile pdfFile box Hr Hun.
  assert (Hstamp : exists e,
             stamp pdfFile sigFile box = inl e /\
             forall pdfDoc,
               PDFDocument_load (file_bytes pdfFile) = inr pdfDoc ->
               embedSignature pdfDoc sigFile = inl e /\
               (embedPng pdfDoc (file_bytes sigFile) = inl e \/
                embedJpg pdfDoc (file_bytes sigFile) = inl e)).
  { unfold stamp, embedSignature.
    destruct (PDFDocument_load (file_bytes pdfFile)) as [e1|pdfDoc].
    - exists e1. split; [reflexivity|]. intros pdfDoc Hl. discriminate.
    - destruct (Hun pdfDoc) as [[ePng HPng] [eJpg HJpg]].
      destruct (App.includes (file_type sigFile) "png").
      + exists ePng. rewrite HPng. split; [reflexivity|].
        intros pdfDoc' Hl. injection Hl as <-. auto.
      + exists eJpg. rewrite HJpg. split; [reflexivity|].
        intros pdfDoc' Hl. injection Hl as <-. auto. }
  destruct Hstamp as [e [Hs Hembed]].
  destruct (sign_failure s _ _ _ _ _ e Hr Hs) as (H1 & H2 & H3 & H4 & _).
  split; [exact H1|]. split; [exact H2|]. split; [exact H4|].
  exists e. auto.
Qed.

Lemma unsupported_image_fails_witness :
  readyToSign (app Stamped.readyWithGif) "doc-1" "sig-1"
              Sample.gifFile Sample.pdfFile App.defaultBox /\
  unsupportedImage (H := Sample.collaborators Sample.twoPages)
                   (file_bytes Sample.gifFile) /\
  App.currentStep
    (App.after (App.handleSignPdf (H := Sample.collaborators Sample.twoPages))
               (app Stamped.readyWithGif))
  = App.preview.
Proof.
  assert (Hun : unsupportedImage (H := Sample.collaborators Sample.twoPages)
                                 (file_bytes Sample.gifFile)).
  { intro pdfDoc. split; eexists; reflexivity. }
  split; [exact readyWithGif_ready|]. split; [exact Hun|].
  exact (proj1 (proj2 (proj2 (unsupported_image_fails
                                (Sample.collaborators Sample.twoPages)
                                (app Stamped.readyWithGif)
                                "doc-1"%string "sig-1"%string
                                Sample.gifFile Sample.pdfFile App.defaultBox
                                readyWithGif_ready Hun)))).
Defined.

(** ** Documents without pages *)

Lemma ready_ready :
  readyToSign (app Sample.ready) "doc-1" "sig-1"
              Sample.pngFile Sample.pdfFile App.defaultBox.
Proof.
  unfold readyToSign.
  split; [reflexivity|]. split; [reflexivity|]. split; [discriminate|].
  split; [reflexivity|]. split; [discriminate|].
  split; [reflexivity|]. split; reflexivity.
Defined.

(** C9, as the code has it.  [handleSignPdf] never looks at the number of
    pages.  When the guards pass, the document parses to zero pages and the
    image embeds, the loop draws nothing and the outcome is that of
    serialising the document as it was parsed: if serialisation succeeds,
    its bytes are delivered as the signed document and the step is
    complete, with no error; if it fails, the call fails as for any other
    document. *)
Theorem empty_document_outcome :
  forall (L : Collaborators) s docId sigId sigFile pdfFile box pdfDoc sigImage,
    readyToSign s docId sigId sigFile pdfFile box ->
    PDFDocument_load (file_bytes pdfFile) = inr pdfDoc ->
    doc_pages pdfDoc = [] ->
    embedSignature pdfDoc sigFile = inr sigImage ->
    App.stampPages sigImage box (doc_pages pdfDoc) = inr [] /\
    match save (mkDoc []) with
    | inr bytes =>
        App.signedBlob (App.after App.handleSignPdf s) = Some bytes /\
        App.signedPdfUrl (App.after App.handleSignPdf s) = Some bytes /\
        App.error (App.after App.handleSignPdf s) = None /\
        App.currentStep (App.after App.handleSignPdf s) = App.complete
    | inl e =>
        App.signedBlob (App.after App.handleSignPdf s) = App.signedBlob s /\
        App.signedPdfUrl (App.after App.handleSignPdf s) = App.signedPdfUrl s /\
        App.error (App.after App.handleSignPdf s)
        = Some (App.orElse (message e) App.signFailedMessage) /\
        App.currentStep (App.after App.handleSignPdf s) = App.preview
    end.
Proof.
  intros L s docId sigId sigFile pdfFile box pdfDoc sigImage Hr Hl Hp He.
  assert (Hs : stamp pdfFile sigFile box = save (mkDoc [])).
  { unfold stamp. rewrite Hl, He, Hp. reflexivity. }
  split; [rewrite Hp; reflexivity|].
  destruct (save (mkDoc [])) as [e|bytes].
  - destruct (sign_failure s _ _ _ _ _ e Hr Hs) as (H1 & H2 & H3 & H4 & _). auto.
  - destruct (sign_success s _ _ _ _ _ bytes Hr Hs) as (H1 & H2 & H3 & H4 & _). auto.
Qed.

Lemma empty_document_outcome_witness :
  readyToSign (app Sample.ready) "doc-1" "sig-1"
              Sample.pngFile Sample.pdfFile App.defaultBox /\
  PDFDocument_load (Collaborators := Sample.collaborators Sample.noPages)
    (file_bytes Sample.pdfFile) = inr Sample.noPages /\
  doc_pages Sample.noPages = [] /\
  embedSignature (H := Sample.collaborators Sample.noPages)
    Sample.noPages Sample.pngFile = inr (mkImage 1) /\
  App.stampPages (H := Sample.collaborators Sample.noPages)
    (mkImage 1) App.defaultBox (doc_pages Sample.noPages) = inr [].
Proof.
  split; [exact ready_ready|]. split; [reflexivity|]. split; [reflexivity|].
  split; [reflexivity|].
  exact (proj1 (empty_document_outcome
                  (Sample.collaborators Sample.noPages) (app Sample.ready)
                  "doc-1"%string "sig-1"%string Sample.pngFile Sample.pdfFile
                  App.defaultBox Sample.noPages (mkImage 1)
                  ready_ready eq_refl eq_refl eq_refl)).
Defined.

(** The claim of C9 as the specification words it fails: with a parser that
    yields a document of zero pages, the stamp of [Sample.ready] does not
    fail; it completes and delivers a document with no stamp on it. *)
Lemma empty_document_is_signed :
  PDFDocument_load (Collaborators := Sample.collaborators Sample.noPages)
    (file_bytes Sample.pdfFile) = inr Sample.noPages /\
  doc_pages Sample.noPages = [] /\
  App.signedBlob
    (App.after (App.handleSignPdf (H := Sample.collaborators Sample.noPages))
               (app Sample.ready))
  = Some [] /\
  App.currentStep
    (App.after (App.handleSignPdf (H := Sample.collaborators Sample.noPages))
               (app Sample.ready))
  = App.complete /\
  App.error
    (App.after (App.handleSignPdf (H := Sample.collaborators Sample.noPages))
               (app Sample.ready))
  = None.
Proof. repeat split. Qed.

(** ** Stamping twice *)

Lemma stamp_keeps_hasSignedOnce `{Collaborators} (s : App.AppState) :
  App.hasSignedOnce (App.after App.handleStampPdf s) = App.hasSignedOnce s.
Proof.
  unfold App.after, App.handleStampPdf, App.bind, App.read.
  destruct (App.falsy (App.documentId s) || App.falsy (App.signatureId s)
            || match App.uploadedSignature s with None => true | Some _ => false end
            || match App.currentSignatureBox s with None => true | Some _ => false end
            || App.isSigning s || App.hasSignedOnce s);
    [reflexivity|].
  apply sign_keeps_hasSignedOnce.
Qed.

(** C2, on the code.  [hasSignedOnce] is read by [handleSignPdf] and by the
    Stamp PDF button, and a call on a session where it is set changes
    nothing; but no path through either handler sets it.  So in the session
    of [Sample.ready] the first stamp completes with the flag still unset,
    and a second stamp, after the box was dragged, goes through and
    replaces the signed blob of the first. *)
Theorem second_stamp_goes_through :
  (forall (L : Collaborators) (s : App.AppState),
      App.after App.handleSignPdf (App.setHasSignedOnce true s)
      = App.setHasSignedOnce true s)
  /\ (forall (L : Collaborators) (s : App.AppState),
      App.hasSignedOnce (App.after App.handleSignPdf s) = App.hasSignedOnce s /\
      App.hasSignedOnce (App.after App.handleStampPdf s) = App.hasSignedOnce s)
  /\ App.currentStep Stamped.signedOnce = App.complete
  /\ App.hasSignedOnce Stamped.signedOnce = false
  /\ App.signedBlob Stamped.signedOnce
     = Some [Byte.x25; Byte.xdf; Byte.x72; Byte.x25; Byte.x9d; Byte.x05]
  /\ App.signedBlob Stamped.signedTwice
     = Some [Byte.x25; Byte.x1a; Byte.x9c; Byte.x25; Byte.xc7; Byte.x23].
Proof.
  split; [intros L s; reflexivity|].
  split; [intros L s; split;
          [apply sign_keeps_hasSignedOnce|apply stamp_keeps_hasSignedOnce]|].
  repeat split; vm_compute; reflexivity.
Qed.

(** ** Only the first page takes part in placement *)

Lemma setToasts_same (s : App.AppState) : App.setToasts (App.toasts s) s = s.
Proof. destruct s; reflexivity. Qed.

(** An event delivered to a page other than the first reaches no handler
    except [handlePageClick], which then at most shows the error. *)
Lemma onEvent_other_page (P : PDFPreview.Props) (R : PDFPreview.Refs)
    (e : PDFPreview.Event) (i : nat) :
  PDFPreview.eventPage e = Some i -> i <> 0%nat ->
  fst (PDFPreview.onEvent P R e) = R /\
  (snd (PDFPreview.onEvent P R e) = [] \/
   snd (PDFPreview.onEvent P R e)
   = [PDFPreview.ShowError PDFPreview.firstPageOnlyMessage]).
Proof.
  intros He Hi.
  assert (Hf : PDFPreview.isFirstPage i = false) by (apply Nat.eqb_neq; exact Hi).
  destruct e as [j ev|j ev|j ev|j ev|j ev|rect]; simpl in He;
    try discriminate; injection He as ->; simpl.
  - split; [reflexivity|]. unfold PDFPreview.handlePageClick.
    unfold PDFPreview.isFirstPage in Hf. rewrite Hf.
    destruct (negb (PDFPreview.onPositionSelect P)
              && negb (PDFPreview.placementMode P && PDFPreview.onSignatureBoxChange P));
      simpl; auto.
  - rewrite Hf, andb_false_r. auto.
  - rewrite Hf, andb_false_r. auto.
  - rewrite Hf, andb_false_r. auto.
  - rewrite Hf, andb_false_r. auto.
Qed.

Lemma dispatch_other_page (w : World) (e : PDFPreview.Event) (i : nat) :
  PDFPreview.eventPage e = Some i -> i <> 0%nat ->
  dispatch w e = w \/
  dispatch w e
  = {| app := App.showError PDFPreview.firstPageOnlyMessage (app w); refs := refs w |}.
Proof.
  intros He Hi.
  destruct (onEvent_other_page (propsOf (app w)) (refs w) e i He Hi) as [HR Hc].
  unfold dispatch.
  destruct (PDFPreview.onEvent (propsOf (app w)) (refs w) e) as [R callbacks].
  simpl in HR, Hc. subst R.
  destruct Hc as [-> | ->]; simpl.
  - left. destruct w; reflexivity.
  - right. reflexivity.
Qed.

(** C10.  Placement and editing happen on the first page only.  Whatever
    sequence of clicks and pointer events is delivered to pages with an
    index other than 0, the box history and its index, the current box, the
    drag in progress and every other field of the session stay as they
    were; the only effect is the error toast, shown once per click at
    most. *)
Theorem other_pages_leave_box_alone :
  forall (w : World) (events : list PDFPreview.Event),
    Forall (fun e => exists i, PDFPreview.eventPage e = Some i /\ i <> 0%nat) events ->
    boxStateOf (run w events) = boxStateOf w /\
    App.currentSignatureBox (app (run w events)) = App.currentSignatureBox (app w) /\
    refs (run w events) = refs w /\
    exists n,
      (n <= List.length events)%nat /\
      app (run w events)
      = App.setToasts
          (App.toasts (app w)
           ++ repeat (App.Error PDFPreview.firstPageOnlyMessage) n)
          (app w).
Proof.
  intros w events Hev.
  assert (Hrun : refs (run w events) = refs w /\
                 exists n,
                   (n <= List.length events)%nat /\
                   app (run w events)
                   = App.setToasts
                       (App.toasts (app w)
                        ++ repeat (App.Error PDFPreview.firstPageOnlyMessage) n)
                       (app w)).
  { revert w. induction Hev as [|e rest [i [He Hi]] _ IH]; intro w.
    - split; [reflexivity|]. exists 0%nat. split; [simpl; lia|].
      simpl. rewrite app_nil_r. symmetry. apply setToasts_same.
    - simpl run. destruct (dispatch_other_page w e i He Hi) as [-> | ->].
      + destruct (IH w) as [HR [n [Hn Ha]]].
        split; [exact HR|]. exists n. split; [simpl; lia|exact Ha].
      + destruct (IH {| app := App.showError PDFPreview.firstPageOnlyMessage (app w);
                        refs := refs w |}) as [HR [n [Hn Ha]]].
        split; [exact HR|]. exists (S n). split; [simpl; lia|].
        rewrite Ha. simpl. rewrite <- app_assoc. reflexivity. }
  destruct Hrun as [HR [n [Hn Ha]]].
  assert (Hst : boxStateOf (run w events) = boxStateOf w)
    by (unfold boxStateOf; rewrite Ha; reflexivity).
  split; [exact Hst|]. split; [|split; [exact HR|exists n; auto]].
  unfold App.currentSignatureBox. fold (boxStateOf (run w events)) (boxStateOf w).
  rewrite Hst. reflexivity.
Qed.

Lemma other_pages_leave_box_alone_witness :
  Forall (fun e => exists i, PDFPreview.eventPage e = Some i /\ i <> 0%nat)
         [PDFPreview.Click 1 (mkMouse 300 700 Sample.pageRect);
          PDFPreview.PointerDownOnBox 2 (mkPointer 400 600 1);
          PDFPreview.PointerMove 2 (mkPointer 482 542 1);
          PDFPreview.PointerUp 2 (mkPointer 482 542 1)] /\
  boxStateOf
    (run Sample.ready
       [PDFPreview.Click 1 (mkMouse 300 700 Sample.pageRect);
        PDFPreview.PointerDownOnBox 2 (mkPointer 400 600 1);
        PDFPreview.PointerMove 2 (mkPointer 482 542 1);
        PDFPreview.PointerUp 2 (mkPointer 482 542 1)])
  = boxStateOf Sample.ready.
Proof.
  assert (Hev : Forall (fun e => exists i, PDFPreview.eventPage e = Some i /\ i <> 0%nat)
                  [PDFPreview.Click 1 (mkMouse 300 700 Sample.pageRect);
                   PDFPreview.PointerDownOnBox 2 (mkPointer 400 600 1);
                   PDFPreview.PointerMove 2 (mkPointer 482 542 1);
                   PDFPreview.PointerUp 2 (mkPointer 482 542 1)]).
  { repeat constructor; eexists; (split; [reflexivity|discriminate]). }
  split; [exact Hev|].
  exact (proj1 (other_pages_leave_box_alone Sample.ready _ Hev)).
Defined.

(** * Further properties *)

(** ** The history in the course of a session *)

Lemma replace_Forall {A : Type} (P : A -> Prop) (a : list A) (n : nat) (v : A) :
  Forall P a -> P v -> Forall P (JsArray.replace a n v).
Proof.
  intros Ha Hv. revert n. induction Ha as [|h t Hh Ht IH]; intros [|n]; simpl;
    constructor; auto.
Qed.

Lemma snapshots_after_update (b : SignatureBox) (pushHistory : bool) (st : BoxState) :
  at_tail st -> history st <> [] -> snapshots_valid (history st) -> valid_box b ->
  history (updateBoxState (Some b) pushHistory st) <> [] /\
  snapshots_valid (history (updateBoxState (Some b) pushHistory st)).
Proof.
  unfold at_tail, snapshots_valid. intros Ht Hne Hs Hb.
  assert (Hlen : (0 < List.length (history st))%nat).
  { destruct (history st); [congruence|simpl; lia]. }
  unfold updateBoxState. rewrite box_eta. destruct pushHistory.
  - cbn [history]. rewrite slice0_all by lia. split.
    + intro Hnil. apply app_eq_nil in Hnil. destruct Hnil as [_ Hnil]. discriminate.
    + apply Forall_app. split; [exact Hs|]. constructor; [|constructor].
      exists b. auto.
  - assert (E1 : (List.length (history st) =? 0)%nat = false)
      by (apply Nat.eqb_neq; lia).
    assert (E2 : (index st <? 0)%Z = false) by (apply Z.ltb_ge; lia).
    rewrite E1, E2. cbn [orb history]. unfold JsArray.set. rewrite E2.
    assert (E3 : (index st <? Z.of_nat (List.length (history st)))%Z = true)
      by (apply Z.ltb_lt; lia).
    rewrite E3. split.
    + intro Hnil. apply (f_equal (@List.length _)) in Hnil.
      rewrite replace_length in Hnil. simpl in Hnil. lia.
    + apply replace_Forall; [exact Hs|]. exists b. auto.
Qed.

Lemma snapshots_after_callbacks (callbacks : list PDFPreview.Callback) (st : BoxState) :
  Forall good_callback callbacks ->
  at_tail st -> history st <> [] -> snapshots_valid (history st) ->
  at_tail (fold_left stepBox callbacks st) /\
  history (fold_left stepBox callbacks st) <> [] /\
  snapshots_valid (history (fold_left stepBox callbacks st)).
Proof.
  intro Hg. revert st. induction Hg as [|c rest Hc _ IH]; intros st Ht Hne Hs.
  - simpl. auto.
  - simpl. destruct c as [bo opt|x y|msg]; simpl; try (apply IH; assumption).
    destruct Hc as [b [-> Hb]].
    destruct (snapshots_after_update b
                (match opt with Some p => p | None => true end) st Ht Hne Hs Hb)
      as [Hne' Hs'].
    apply IH; [apply at_tail_after_update; exact Ht|exact Hne'|exact Hs'].
Qed.

(** X1.  In every session that follows a signature upload, after any
    sequence of preview events: the history is not empty, has no holes,
    every snapshot in it is a valid box, and the index is its last position
    (there is never a snapshot after the index). *)
Theorem history_always_sound :
  forall file sigId s rect events,
    let st := boxStateOf (run (placing file sigId s rect) events) in
    history st <> [] /\
    snapshots_valid (history st) /\
    index st = (Z.of_nat (List.length (history st)) - 1)%Z.
Proof.
  intros file sigId s rect events.
  assert (Hgen : forall w,
             session_ok w -> history (boxStateOf w) <> [] ->
             snapshots_valid (history (boxStateOf w)) ->
             history (boxStateOf (run w events)) <> [] /\
             snapshots_valid (history (boxStateOf (run w events))) /\
             at_tail (boxStateOf (run w events))).
  { induction events as [|e rest IH]; intros w Hok Hne Hs.
    - simpl. split; [exact Hne|]. split; [exact Hs|exact (ok_tail w Hok)].
    - simpl. apply IH.
      + apply dispatch_ok. exact Hok.
      + rewrite boxState_dispatch.
        apply (snapshots_after_callbacks _ _ (proj2 (onEvent_ok w e Hok))
                 (ok_tail w Hok) Hne Hs).
      + rewrite boxState_dispatch.
        apply (snapshots_after_callbacks _ _ (proj2 (onEvent_ok w e Hok))
                 (ok_tail w Hok) Hne Hs). }
  apply Hgen.
  - apply placing_ok.
  - discriminate.
  - constructor; [|constructor]. exists App.defaultBox.
    split; [reflexivity|apply defaultBox_valid].
Qed.

(** ** Drags *)

Lemma replace_replace {A : Type} (a : list A) (n : nat) (u v : A) :
  JsArray.replace (JsArray.replace a n u) n v = JsArray.replace a n v.
Proof.
  revert n. induction a as [|h t IH]; intros [|n]; simpl; try reflexivity.
  rewrite IH. reflexivity.
Qed.

Lemma app_dispatch_move_fields (w : World) (i : nat) (ev : PointerEvent) :
  refs (dispatch w (PDFPreview.PointerMove i ev)) = refs w.
Proof.
  rewrite refs_dispatch. simpl.
  destruct (PDFPreview.overlayRendered (propsOf (app w)) && PDFPreview.isFirstPage i);
    reflexivity.
Qed.

(** What a pointer move on the first page does to the box state, in the two
    cases. *)
Lemma move_boxState (w : World) (ev : PointerEvent) :
  session_ok w ->
  boxStateOf (dispatch w (PDFPreview.PointerMove 0 ev))
  = match PDFPreview.dragStateRef (refs w), PDFPreview.firstPageContainerRef (refs w) with
    | Some d, Some rect =>
        match PDFPreview.mode d, PDFPreview.startBox d with
        | Some m, Some sb =>
            updateBoxState
              (Some (PDFPreview.draggedBox m sb
                       ((ev_clientX ev - PDFPreview.startX d) / rect_width rect)
                       ((ev_clientY ev - PDFPreview.startY d) / rect_height rect)))
              false (boxStateOf w)
        | _, _ => boxStateOf w
        end
    | _, _ => boxStateOf w
    end.
Proof.
  intro Hok. pose proof (overlay_of_session w Hok) as Hover.
  rewrite boxState_dispatch. cbn [PDFPreview.onEvent]. rewrite Hover.
  cbn [PDFPreview.isFirstPage Nat.eqb andb snd].
  unfold PDFPreview.handleSignaturePointerMove.
  destruct (PDFPreview.dragStateRef (refs w)) as [d|] eqn:Ed; [|reflexivity].
  destruct (ok_drag w Hok d Ed) as [[m Hm] [sb [Hsb _]]]. rewrite Hm, Hsb.
  destruct (PDFPreview.firstPageContainerRef (refs w)); reflexivity.
Qed.

(** X2.  A drag does not depend on the path of the pointer: in a session
    that follows a signature upload, two pointer moves on the first page
    leave the same history and index as the second move alone. *)
Theorem drag_is_path_independent :
  forall file sigId s rect events ev1 ev2,
    let w := run (placing file sigId s rect) events in
    boxStateOf (dispatch (dispatch w (PDFPreview.PointerMove 0 ev1))
                         (PDFPreview.PointerMove 0 ev2))
    = boxStateOf (dispatch w (PDFPreview.PointerMove 0 ev2)).
Proof.
  intros file sigId s rect events ev1 ev2 w.
  assert (Hok : session_ok w) by (apply run_ok, placing_ok).
  assert (Hok1 : session_ok (dispatch w (PDFPreview.PointerMove 0 ev1)))
    by (apply dispatch_ok; exact Hok).
  rewrite (move_boxState _ ev2 Hok1), app_dispatch_move_fields.
  rewrite (move_boxState w ev2 Hok), (move_boxState w ev1 Hok).
  destruct (PDFPreview.dragStateRef (refs w)) as [d|]; [|reflexivity].
  destruct (PDFPreview.firstPageContainerRef (refs w)) as [r|]; [|reflexivity].
  destruct (PDFPreview.mode d) as [m|]; [|reflexivity].
  destruct (PDFPreview.startBox d) as [sb|]; [|reflexivity].
  destruct (ok_current w Hok) as [b [Hb _]].
  change (App.currentSignatureBox (app w)) with (currentBoxOf (boxStateOf w)) in Hb.
  set (st := boxStateOf w) in *.
  set (b1 := PDFPreview.draggedBox m sb
               ((ev_clientX ev1 - PDFPreview.startX d) / rect_width r)
               ((ev_clientY ev1 - PDFPreview.startY d) / rect_height r)).
  set (b2 := PDFPreview.draggedBox m sb
               ((ev_clientX ev2 - PDFPreview.startX d) / rect_width r)
               ((ev_clientY ev2 - PDFPreview.startY d) / rect_height r)).
  destruct (update_in_place b b1 st Hb) as [Hh1 Hi1].
  destruct (update_in_place b b2 st Hb) as [Hh2 Hi2].
  assert (Hb1 : currentBoxOf (updateBoxState (Some b1) false st) = Some b1)
    by apply current_after_update.
  destruct (update_in_place b1 b2 _ Hb1) as [Hh12 Hi12].
  destruct (updateBoxState (Some b2) false (updateBoxState (Some b1) false st))
    as [h12 i12].
  destruct (updateBoxState (Some b2) false st) as [h2 i2].
  cbn [history index] in *.
  rewrite Hh12, Hi12, Hh1, Hi1, Hh2, Hi2, replace_replace. reflexivity.
Qed.

(** X3.  Pointer down on the box or on the handle of the first page starts
    a drag from the current box with the pointer of the event, also when
    another drag is already in progress (the later pointer takes over); the
    history is not touched. *)
Theorem pointer_down_restarts_drag :
  forall (w : World) (ev : PointerEvent) (b : SignatureBox) (rect : DOMRect),
    session_ok w ->
    App.currentSignatureBox (app w) = Some b ->
    PDFPreview.firstPageContainerRef (refs w) = Some rect ->
    (boxStateOf (dispatch w (PDFPreview.PointerDownOnBox 0 ev)) = boxStateOf w /\
     PDFPreview.dragStateRef (refs (dispatch w (PDFPreview.PointerDownOnBox 0 ev)))
     = Some (PDFPreview.mkDrag (Some PDFPreview.move) (Some (ev_pointerId ev))
                               (ev_clientX ev) (ev_clientY ev) (Some b)))
    /\
    (boxStateOf (dispatch w (PDFPreview.PointerDownOnHandle 0 ev)) = boxStateOf w /\
     PDFPreview.dragStateRef (refs (dispatch w (PDFPreview.PointerDownOnHandle 0 ev)))
     = Some (PDFPreview.mkDrag (Some PDFPreview.resize) (Some (ev_pointerId ev))
                               (ev_clientX ev) (ev_clientY ev) (Some b))).
Proof.
  intros w ev b rect Hok Hb Hrect.
  pose proof (overlay_of_session w Hok) as Hover.
  assert (Hdown : forall m,
             PDFPreview.handleSignaturePointerDown (propsOf (app w)) (refs w) ev m
             = {| PDFPreview.dragStateRef :=
                    Some (PDFPreview.mkDrag (Some m) (Some (ev_pointerId ev))
                                            (ev_clientX ev) (ev_clientY ev) (Some b));
                  PDFPreview.firstPageContainerRef := Some rect |}).
  { intro m. unfold PDFPreview.handleSignaturePointerDown.
    replace (PDFPreview.placementMode (propsOf (app w))) with true
      by (symmetry; exact (ok_placement w Hok)).
    replace (PDFPreview.signatureBox (propsOf (app w))) with (Some b)
      by (symmetry; exact Hb).
    rewrite Hrect. reflexivity. }
  split.
  - rewrite boxState_dispatch, refs_dispatch. cbn [PDFPreview.onEvent].
    rewrite Hover. cbn [PDFPreview.isFirstPage Nat.eqb andb fst snd].
    rewrite Hdown. split; reflexivity.
  - rewrite boxState_dispatch, refs_dispatch. cbn [PDFPreview.onEvent].
    rewrite Hover. cbn [PDFPreview.isFirstPage Nat.eqb andb fst snd].
    rewrite Hdown. split; reflexivity.
Qed.

Lemma pointer_down_restarts_drag_witness :
  session_ok Scenario.midDrag /\
  App.currentSignatureBox (app Scenario.midDrag) = Some Scenario.movedBox /\
  PDFPreview.firstPageContainerRef (refs Scenario.midDrag) = Some Sample.pageRect /\
  PDFPreview.dragStateRef
    (refs (dispatch Scenario.midDrag (PDFPreview.PointerDownOnHandle 0 (mkPointer 10 20 7))))
  = Some (PDFPreview.mkDrag (Some PDFPreview.resize) (Some 7%Z) 10 20
                            (Some Scenario.movedBox)).
Proof.
  assert (Hok : session_ok Scenario.midDrag) by (apply run_ok, placing_ok).
  assert (Hb : App.currentSignatureBox (app Scenario.midDrag) = Some Scenario.movedBox)
    by (vm_compute; reflexivity).
  assert (Hr : PDFPreview.firstPageContainerRef (refs Scenario.midDrag)
               = Some Sample.pageRect) by (vm_compute; reflexivity).
  split; [exact Hok|]. split; [exact Hb|]. split; [exact Hr|].
  exact (proj2 (proj2 (pointer_down_restarts_drag Scenario.midDrag
                         (mkPointer 10 20 7) Scenario.movedBox Sample.pageRect
                         Hok Hb Hr))).
Defined.

(** X4.  Pointer up on the box of the first page ends the drag: in a
    session that follows a signature upload no drag is in progress after
    it, and a pointer move that comes next, on any page, changes neither the
    history nor the index. *)
Theorem pointer_up_ends_drag :
  forall file sigId s rect events ev i ev',
    let w := dispatch (run (placing file sigId s rect) events)
                      (PDFPreview.PointerUp 0 ev) in
    PDFPreview.dragStateRef (refs w) = None /\
    boxStateOf (dispatch w (PDFPreview.PointerMove i ev')) = boxStateOf w.
Proof.
  intros file sigId s rect events ev i ev'.
  set (w0 := run (placing file sigId s rect) events).
  assert (Hok0 : session_ok w0) by (apply run_ok, placing_ok).
  intro w.
  assert (Hok : session_ok w) by (apply dispatch_ok; exact Hok0).
  assert (Hnone : PDFPreview.dragStateRef (refs w) = None).
  { unfold w. rewrite refs_dispatch. cbn [PDFPreview.onEvent].
    rewrite (overlay_of_session w0 Hok0).
    cbn [PDFPreview.isFirstPage Nat.eqb andb].
    unfold PDFPreview.handleSignaturePointerUp.
    destruct (PDFPreview.dragStateRef (refs w0)) as [d|]; [|reflexivity].
    destruct (PDFPreview.mode d); [|reflexivity].
    destruct (PDFPreview.onSignatureBoxChange (propsOf (app w0))); [|reflexivity].
    destruct (PDFPreview.signatureBox (propsOf (app w0))); reflexivity. }
  split; [exact Hnone|].
  rewrite boxState_dispatch. cbn [PDFPreview.onEvent].
  destruct (PDFPreview.overlayRendered (propsOf (app w)) && PDFPreview.isFirstPage i);
    [|reflexivity].
  cbn [snd]. unfold PDFPreview.handleSignaturePointerMove. rewrite Hnone. reflexivity.
Qed.

(** X5.  Whatever box [handleSignaturePointerMove] hands to its parent in a
    drag that started from a valid box, it hands it over without
    [pushHistory] and the box has at least the minimum size (0.05 by 0.03);
    a move drag keeps the width and height of the start box, a resize drag
    keeps its top-left corner. *)
Theorem pointer_move_keeps_shape :
  forall P R event bo opt d sb,
    PDFPreview.dragStateRef R = Some d ->
    PDFPreview.startBox d = Some sb ->
    valid_box sb ->
    In (PDFPreview.SignatureBoxChange bo opt)
       (PDFPreview.handleSignaturePointerMove P R event) ->
    opt = Some false /\
    exists b,
      bo = Some b /\
      minWidth <= box_width b /\ minHeight <= box_height b /\
      match PDFPreview.mode d with
      | Some PDFPreview.move =>
          box_width b = box_width sb /\ box_height b = box_height sb
      | Some PDFPreview.resize =>
          box_x b = box_x sb /\ box_y b = box_y sb
      | None => False
      end.
Proof.
  intros P R event bo opt d sb Hd Hsb Hv Hin.
  unfold PDFPreview.handleSignaturePointerMove in Hin. rewrite Hd, Hsb in Hin.
  destruct (PDFPreview.mode d) as [m|]; [|contradiction].
  destruct (PDFPreview.firstPageContainerRef R) as [rect|]; [|contradiction].
  destruct (PDFPreview.onSignatureBoxChange P); [|contradiction].
  destruct Hin as [Heq|[]]. injection Heq as <- <-.
  split; [reflexivity|]. eexists. split; [reflexivity|].
  destruct (draggedBox_valid m sb
              ((ev_clientX event - PDFPreview.startX d) / rect_width rect)
              ((ev_clientY event - PDFPreview.startY d) / rect_height rect) Hv)
    as [_ [Hw Hh]].
  split; [exact Hw|]. split; [exact Hh|].
  destruct m; split; reflexivity.
Qed.

Lemma pointer_move_keeps_shape_witness :
  PDFPreview.dragStateRef (refs Scenario.dragStarted)
  = Some (PDFPreview.mkDrag (Some PDFPreview.move) (Some 1%Z) 400 600
                            (Some App.defaultBox)) /\
  valid_box App.defaultBox /\
  In (PDFPreview.SignatureBoxChange
        (Some (PDFPreview.draggedBox PDFPreview.move App.defaultBox
                 ((482 - 400) / 820) ((542 - 600) / 1160)))
        (Some false))
     (PDFPreview.handleSignaturePointerMove
        (propsOf (app Scenario.dragStarted)) (refs Scenario.dragStarted)
        (mkPointer 482 542 1)) /\
  box_width (PDFPreview.draggedBox PDFPreview.move App.defaultBox
               ((482 - 400) / 820) ((542 - 600) / 1160))
  = box_width App.defaultBox.
Proof.
  assert (Hd : PDFPreview.dragStateRef (refs Scenario.dragStarted)
               = Some (PDFPreview.mkDrag (Some PDFPreview.move) (Some 1%Z) 400 600
                                         (Some App.defaultBox))) by reflexivity.
  assert (Hin : In (PDFPreview.SignatureBoxChange
                      (Some (PDFPreview.draggedBox PDFPreview.move App.defaultBox
                               ((482 - 400) / 820) ((542 - 600) / 1160)))
                      (Some false))
                   (PDFPreview.handleSignaturePointerMove
                      (propsOf (app Scenario.dragStarted)) (refs Scenario.dragStarted)
                      (mkPointer 482 542 1))) by (left; reflexivity).
  split; [exact Hd|]. split; [exact defaultBox_valid|]. split; [exact Hin|].
  destruct (pointer_move_keeps_shape _ _ _ _ _ _ _ Hd eq_refl defaultBox_valid Hin)
    as [_ [b [Hb [_ [_ Hshape]]]]].
  injection Hb as <-. exact (proj1 Hshape).
Defined.

(** ** Placing the box by a click *)

(** [toFixed(4)] moves a non-negative value by at most 0.00005. *)
Lemma toFixed4_error (v : Q) :
  0 <= v -> v - (1 # 20000) <= Num.toFixed4 v /\ Num.toFixed4 v <= v + (1 # 20000).
Proof.
  intro H0. unfold Num.toFixed4.
  assert (E : Num.ltb v 0 = false) by (apply ltb_ge; exact H0).
  rewrite E. unfold Num.roundHalfUp4.
  set (n := Qfloor (v * 10000 + (1 # 2))).
  pose proof (Qfloor_le (v * 10000 + (1 # 2))) as Hlo. fold n in Hlo.
  pose proof (Qlt_floor (v * 10000 + (1 # 2))) as Hhi. fold n in Hhi.
  rewrite inject_Z_plus in Hhi. change (inject_Z 1) with 1 in Hhi.
  clearbody n.
  split.
  - apply Qle_shift_div_l; [lra|]. lra.
  - apply Qle_shift_div_r; [lra|]. lra.
Qed.

(** X6.  Whatever box [handlePageClick] hands to its parent, the click was
    on the first page, the box is handed over with [pushHistory], it is a
    valid box of the default size 0.25 by 0.12 wherever the click landed, and
    when the click is at least half a box away from the left and right
    edges the box is centred on it horizontally up to the rounding to four
    decimals. *)
Theorem page_click_places_valid_box :
  forall P event pageIndex bo opt,
    In (PDFPreview.SignatureBoxChange bo opt)
       (PDFPreview.handlePageClick P event pageIndex) ->
    pageIndex = 0%nat /\ opt = Some true /\
    exists b,
      bo = Some b /\ valid_box b /\
      box_width b == 25 # 100 /\ box_height b == 12 # 100 /\
      let x := (click_clientX event - rect_left (click_targetRect event))
               / rect_width (click_targetRect event) in
      (125 # 1000 <= x -> x <= 875 # 1000 ->
       x - (1 # 20000) <= box_x b + (125 # 1000) /\
       box_x b + (125 # 1000) <= x + (1 # 20000)).
Proof.
  intros P event pageIndex bo opt Hin.
  unfold PDFPreview.handlePageClick in Hin.
  destruct (negb (PDFPreview.onPositionSelect P)
            && negb (PDFPreview.placementMode P && PDFPreview.onSignatureBoxChange P));
    [contradiction|].
  destruct (Nat.eqb pageIndex 0) eqn:Ei; simpl in Hin.
  2:{ destruct Hin as [Hin|[]]. discriminate. }
  apply Nat.eqb_eq in Ei.
  destruct (PDFPreview.placementMode P && PDFPreview.onSignatureBoxChange P).
  2:{ simpl in Hin. destruct (PDFPreview.onPositionSelect P); simpl in Hin.
      - destruct Hin as [Hin|[]]. discriminate.
      - contradiction. }
  simpl in Hin. destruct Hin as [Heq|Hin].
  2:{ destruct (PDFPreview.onPositionSelect P); simpl in Hin.
      - destruct Hin as [Hin|[]]. discriminate.
      - contradiction. }
  injection Heq as <- <-.
  split; [exact Ei|]. split; [reflexivity|].
  eexists. split; [reflexivity|]. split; [apply clickedBox_valid|].
  split; [vm_compute; reflexivity|]. split; [vm_compute; reflexivity|].
  cbv zeta. cbn [box_x]. intros Hlo Hhi.
  set (x := (click_clientX event - rect_left (click_targetRect event))
            / rect_width (click_targetRect event)) in *.
  clearbody x.
  set (half := defaultWidth / 2).
  assert (Hhalf : half == 125 # 1000) by (vm_compute; reflexivity).
  clearbody half.
  assert (Hc : PDFPreview.clamp (x - half) 0 (1 - defaultWidth) = x - half).
  { apply clamp_inside; unfold defaultWidth; lra. }
  rewrite Hc.
  destruct (toFixed4_error (x - half)) as [E1 E2]; [lra|].
  split; lra.
Qed.

Lemma page_click_places_valid_box_witness :
  In (PDFPreview.SignatureBoxChange (Some Further.clickedBox) (Some true))
     (PDFPreview.handlePageClick (propsOf (app Sample.ready)) Further.click 0)
  /\ valid_box Further.clickedBox.
Proof.
  assert (Hin : In (PDFPreview.SignatureBoxChange (Some Further.clickedBox) (Some true))
                   (PDFPreview.handlePageClick (propsOf (app Sample.ready))
                                               Further.click 0))
    by (left; reflexivity).
  split; [exact Hin|].
  destruct (page_click_places_valid_box _ _ _ _ _ Hin) as [_ [_ [b [Hb [Hv _]]]]].
  injection Hb as <-. exact Hv.
Defined.

(** ** [updateSignatureBox] *)

(** X7.  After [updateSignatureBox(box, pushHistory)] with a box, that box
    is the current box and the marker sits at its centre, whatever the
    history and index were before (also an empty history or an index outside
    it); after [updateSignatureBox(null, pushHistory)] the history is empty,
    the index is -1 and there is neither a current box nor a marker. *)
Theorem update_makes_box_current :
  forall (s : App.AppState) (box : SignatureBox) (pushHistory : bool),
    (App.currentSignatureBox (App.updateSignatureBox (Some box) pushHistory s) = Some box /\
     App.signaturePosition (App.updateSignatureBox (Some box) pushHistory s)
     = Some (App.boxCentre box)) /\
    (App.signatureBoxState (App.updateSignatureBox None pushHistory s)
     = {| history := []; index := -1 |} /\
     App.currentSignatureBox (App.updateSignatureBox None pushHistory s) = None /\
     App.signaturePosition (App.updateSignatureBox None pushHistory s) = None).
Proof.
  intros s box pushHistory. split.
  - split; [|reflexivity].
    unfold App.currentSignatureBox. rewrite boxState_updateSignatureBox.
    apply current_after_update.
  - repeat split.
Qed.

(** ** More on [handleSignPdf] *)

(** X8.  When nothing was signed yet and a document id, a signature id, one
    of the two files or the box is missing, [handleSignPdf] sets the error
    to the missing-uploads message and shows it, and does nothing else: the
    step, the progress, the outputs and the box stay as they were and the
    collaborators are not called. *)
Theorem sign_without_uploads :
  forall (L : Collaborators) (s : App.AppState),
    App.hasSignedOnce s = false ->
    App.falsy (App.documentId s) || App.falsy (App.signatureId s)
    || match App.uploadedSignature s with None => true | Some _ => false end
    || match App.uploadedPdf s with None => true | Some _ => false end
    || match App.currentSignatureBox s with None => true | Some _ => false end
    = true ->
    App.after App.handleSignPdf s
    = App.showError App.missingUploadsMessage
        (App.setError (Some App.missingUploadsMessage) s).
Proof.
  intros L s Hs Hmiss.
  unfold App.after, App.handleSignPdf, App.bind, App.read. rewrite Hs.
  destruct (App.documentId s) as [docId|]; [|reflexivity].
  destruct (App.signatureId s) as [sigId|]; [|reflexivity].
  destruct (App.uploadedSignature s) as [sigFile|]; [|reflexivity].
  destruct (App.uploadedPdf s) as [pdfFile|]; [|reflexivity].
  destruct (App.currentSignatureBox s) as [box|]; [|reflexivity].
  rewrite !orb_false_r in Hmiss. rewrite Hmiss. reflexivity.
Qed.

Lemma sign_without_uploads_witness :
  App.hasSignedOnce App.initialState = false /\
  App.error (App.after (App.handleSignPdf (H := Sample.collaborators Sample.twoPages))
                       App.initialState)
  = Some App.missingUploadsMessage.
Proof.
  split; [reflexivity|].
  rewrite (sign_without_uploads (Sample.collaborators Sample.twoPages)
             App.initialState eq_refl eq_refl).
  reflexivity.
Defined.

(** X9.  A failure of the [signPDF] request to the backend does not fail the
    stamp: when the guards pass and the stamp succeeds, the step is complete
    and the stamped bytes are delivered either way; the id of the signed
    document is the one the backend returned, and is left as it was when the
    request failed. *)
Theorem backend_failure_is_swallowed :
  forall (L : Collaborators) s docId sigId sigFile pdfFile box bytes,
    readyToSign s docId sigId sigFile pdfFile box ->
    stamp pdfFile sigFile box = inr bytes ->
    App.currentStep (App.after App.handleSignPdf s) = App.complete /\
    App.signedBlob (App.after App.handleSignPdf s) = Some bytes /\
    App.error (App.after App.handleSignPdf s) = None /\
    App.signedDocumentId (App.after App.handleSignPdf s)
    = match apiService_signPDF docId sigId (App.signaturePosition s) with
      | inr signedId => Some signedId
      | inl _ => App.signedDocumentId s
      end.
Proof.
  intros L s docId sigId sigFile pdfFile box bytes Hready Hstamp.
  unfold stamp, embedSignature in Hstamp.
  open_ready_sign Hready.
  destruct (PDFDocument_load (file_bytes pdfFile)) as [e1|pdfDoc]; [discriminate|].
  destruct (if App.includes (file_type sigFile) "png"
            then embedPng pdfDoc (file_bytes sigFile)
            else embedJpg pdfDoc (file_bytes sigFile)) as [e2|sigImage];
    [discriminate|].
  cbn. rewrite Hb.
  destruct (App.stampPages sigImage box (doc_pages pdfDoc)) as [e3|pages];
    [discriminate|].
  rewrite Hstamp. cbn.
  destruct (apiService_signPDF docId sigId (App.signaturePosition s)); cbn; auto.
Qed.

Lemma backend_failure_is_swallowed_witness :
  readyToSign (app Sample.ready) "doc-1" "sig-1"
              Sample.pngFile Sample.pdfFile App.defaultBox /\
  stamp (H := Further.offline Sample.twoPages)
        Sample.pdfFile Sample.pngFile App.defaultBox
  = inr [Byte.x25; Byte.xdf; Byte.x72; Byte.x25; Byte.x9d; Byte.x05] /\
  App.currentStep Further.signedOffline = App.complete /\
  App.signedDocumentId Further.signedOffline = None.
Proof.
  assert (Hs : stamp (H := Further.offline Sample.twoPages)
                     Sample.pdfFile Sample.pngFile App.defaultBox
               = inr [Byte.x25; Byte.xdf; Byte.x72; Byte.x25; Byte.x9d; Byte.x05])
    by (vm_compute; reflexivity).
  split; [exact ready_ready|]. split; [exact Hs|].
  destruct (backend_failure_is_swallowed (Further.offline Sample.twoPages)
              (app Sample.ready) _ _ _ _ _ _ ready_ready Hs)
    as [Hstep [_ [_ Hid]]].
  split; [exact Hstep|exact Hid].
Defined.

(** X10.  Every call of [handleSignPdf] that passes the guards shows the
    loading toast once and dismisses it, on success (then the success toast
    follows) and on failure (the error toast with the reported message comes
    first), and leaves [isSigning] false. *)
Theorem loading_toast_is_dismissed :
  forall (L : Collaborators) s docId sigId sigFile pdfFile box,
    readyToSign s docId sigId sigFile pdfFile box ->
    App.isSigning (App.after App.handleSignPdf s) = false /\
    App.toasts (App.after App.handleSignPdf s)
    = App.toasts s
      ++ match stamp pdfFile sigFile box with
         | inr _ =>
             [App.Loading (List.length (App.toasts s)) App.signingToast;
              App.Dismiss (List.length (App.toasts s));
              App.Success App.signedToast]
         | inl e =>
             [App.Loading (List.length (App.toasts s)) App.signingToast;
              App.Error (App.orElse (message e) App.signFailedMessage);
              App.Dismiss (List.length (App.toasts s))]
         end.
Proof.
  intros L s docId sigId sigFile pdfFile box Hready.
  unfold stamp, embedSignature.
  open_ready_sign Hready.
  destruct (PDFDocument_load (file_bytes pdfFile)) as [e1|pdfDoc].
  { cbn. rewrite <- !app_assoc. auto. }
  destruct (if App.includes (file_type sigFile) "png"
            then embedPng pdfDoc (file_bytes sigFile)
            else embedJpg pdfDoc (file_bytes sigFile)) as [e2|sigImage].
  { cbn. rewrite <- !app_assoc. auto. }
  cbn. rewrite Hb.
  destruct (App.stampPages sigImage box (doc_pages pdfDoc)) as [e3|pages].
  { cbn. rewrite <- !app_assoc. auto. }
  destruct (save (mkDoc pages)) as [e4|bytes].
  { cbn. rewrite <- !app_assoc. auto. }
  cbn.
  destruct (apiService_signPDF docId sigId (App.signaturePosition s));
    cbn; rewrite <- !app_assoc; auto.
Qed.

Lemma loading_toast_is_dismissed_witness :
  readyToSign (app Stamped.readyWithGif) "doc-1" "sig-1"
              Sample.gifFile Sample.pdfFile App.defaultBox /\
  App.isSigning
    (App.after (App.handleSignPdf (H := Sample.collaborators Sample.twoPages))
               (app Stamped.readyWithGif)) = false.
Proof.
  split; [exact readyWithGif_ready|].
  exact (proj1 (loading_toast_is_dismissed (Sample.collaborators Sample.twoPages)
                  (app Stamped.readyWithGif) _ _ _ _ _ readyWithGif_ready)).
Defined.

(** X11.  The progress value a call of [handleSignPdf] leaves behind tells
    how far it got: 10 when parsing or embedding failed, 45 when a draw
    failed, 80 when serialisation failed, 100 when the stamp succeeded. *)
Theorem progress_tells_the_stage :
  forall (L : Collaborators) s docId sigId sigFile pdfFile box,
    readyToSign s docId sigId sigFile pdfFile box ->
    App.signingProgress (App.after App.handleSignPdf s)
    = match PDFDocument_load (file_bytes pdfFile) with
      | inl _ => 10%Z
      | inr pdfDoc =>
          match embedSignature pdfDoc sigFile with
          | inl _ => 10%Z
          | inr sigImage =>
              match App.stampPages sigImage box (doc_pages pdfDoc) with
              | inl _ => 45%Z
              | inr pages =>
                  match save (mkDoc pages) with
                  | inl _ => 80%Z
                  | inr _ => 100%Z
                  end
              end
          end
      end.
Proof.
  intros L s docId sigId sigFile pdfFile box Hready.
  unfold embedSignature.
  open_ready_sign Hready.
  destruct (PDFDocument_load (file_bytes pdfFile)) as [e1|pdfDoc]; [reflexivity|].
  destruct (if App.includes (file_type sigFile) "png"
            then embedPng pdfDoc (file_bytes sigFile)
            else embedJpg pdfDoc (file_bytes sigFile)) as [e2|sigImage];
    [reflexivity|].
  cbn. rewrite Hb.
  destruct (App.stampPages sigImage box (doc_pages pdfDoc)) as [e3|pages];
    [reflexivity|].
  destruct (save (mkDoc pages)) as [e4|bytes]; [reflexivity|]. cbn.
  destruct (apiService_signPDF docId sigId (App.signaturePosition s)); reflexivity.
Qed.

Lemma progress_tells_the_stage_witness :
  readyToSign (app Stamped.readyWithGif) "doc-1" "sig-1"
              Sample.gifFile Sample.pdfFile App.defaultBox /\
  App.signingProgress
    (App.after (App.handleSignPdf (H := Sample.collaborators Sample.twoPages))
               (app Stamped.readyWithGif)) = 10%Z.
Proof.
  split; [exact readyWithGif_ready|].
  exact (progress_tells_the_stage (Sample.collaborators Sample.twoPages)
           (app Stamped.readyWithGif) _ _ _ _ _ readyWithGif_ready).
Defined.

(** X12.  [handleSignPdf] only reads the uploads and the placement: on
    every path (guards, success, failure at any stage) the uploaded files,
    their ids, the box history and its index, the marker position, the
    placement mode and the signature preview are what they were before the
    call. *)
Theorem sign_leaves_inputs_alone :
  forall (L : Collaborators) (s : App.AppState),
    App.uploadedPdf (App.after App.handleSignPdf s) = App.uploadedPdf s /\
    App.uploadedSignature (App.after App.handleSignPdf s) = App.uploadedSignature s /\
    App.documentId (App.after App.handleSignPdf s) = App.documentId s /\
    App.signatureId (App.after App.handleSignPdf s) = App.signatureId s /\
    App.signatureBoxState (App.after App.handleSignPdf s) = App.signatureBoxState s /\
    App.signaturePosition (App.after App.handleSignPdf s) = App.signaturePosition s /\
    App.placementMode (App.after App.handleSignPdf s) = App.placementMode s /\
    App.signaturePreviewUrl (App.after App.handleSignPdf s) = App.signaturePreviewUrl s.
Proof.
  intros L s.
  destruct (sign_guards s) as [(docId & sigId & sigFile & pdfFile & box & Hr)|[->| ->]];
    [|repeat split|repeat split].
  open_ready_sign Hr.
  destruct (PDFDocument_load (file_bytes pdfFile)) as [e1|pdfDoc];
    [cbn; repeat split; assumption|].
  destruct (if App.includes (file_type sigFile) "png"
            then embedPng pdfDoc (file_bytes sigFile)
            else embedJpg pdfDoc (file_bytes sigFile)) as [e2|sigImage];
    [cbn; repeat split; assumption|].
  cbn. rewrite Hb.
  destruct (App.stampPages sigImage box (doc_pages pdfDoc)) as [e3|pages];
    [cbn; repeat split; assumption|].
  destruct (save (mkDoc pages)) as [e4|bytes]; [cbn; repeat split; assumption|].
  cbn.
  destruct (apiService_signPDF docId sigId (App.signaturePosition s));
    cbn; repeat split; assumption.
Qed.

(** ** Download and delete *)

(** X13.  After a stamp that succeeded, [handleDownload] starts a download
    of exactly the stamped bytes, named [signed_] followed by the name of
    the uploaded PDF ([document.pdf] when that name is empty). *)
Theorem download_delivers_the_stamp :
  forall (L : Collaborators) s docId sigId sigFile pdfFile box bytes,
    readyToSign s docId sigId sigFile pdfFile box ->
    stamp pdfFile sigFile box = inr bytes ->
    fst (Actions.handleDownload (App.after App.handleSignPdf s))
    = inr (Some (Actions.mkDownload
                   (String.append "signed_"
                      (App.orElse (file_name pdfFile) "document.pdf"))
                   bytes)).
Proof.
  intros L s docId sigId sigFile pdfFile box bytes Hready Hstamp.
  destruct (sign_success s _ _ _ _ _ bytes Hready Hstamp) as (Hblob & _).
  destruct (sign_leaves_inputs_alone L s) as (Hpdf & _).
  destruct Hready as (_ & _ & _ & _ & _ & _ & Hpf & _). rewrite Hpf in Hpdf.
  unfold Actions.handleDownload, App.bind, App.read.
  rewrite Hblob, Hpdf. reflexivity.
Qed.

Lemma download_delivers_the_stamp_witness :
  readyToSign (app Sample.ready) "doc-1" "sig-1"
              Sample.pngFile Sample.pdfFile App.defaultBox /\
  stamp (H := Sample.collaborators Sample.twoPages)
        Sample.pdfFile Sample.pngFile App.defaultBox
  = inr [Byte.x25; Byte.xdf; Byte.x72; Byte.x25; Byte.x9d; Byte.x05] /\
  fst (Actions.handleDownload
         (App.after (App.handleSignPdf (H := Sample.collaborators Sample.twoPages))
                    (app Sample.ready)))
  = inr (Some (Actions.mkDownload "signed_contract.pdf"
                 [Byte.x25; Byte.xdf; Byte.x72; Byte.x25; Byte.x9d; Byte.x05])).
Proof.
  assert (Hs : stamp (H := Sample.collaborators Sample.twoPages)
                     Sample.pdfFile Sample.pngFile App.defaultBox
               = inr [Byte.x25; Byte.xdf; Byte.x72; Byte.x25; Byte.x9d; Byte.x05])
    by (vm_compute; reflexivity).
  split; [exact ready_ready|]. split; [exact Hs|].
  exact (download_delivers_the_stamp (Sample.collaborators Sample.twoPages)
           (app Sample.ready) _ _ _ _ _ _ ready_ready Hs).
Defined.

(** X14.  When no signed blob or no uploaded PDF is there, [handleDownload]
    starts no download and only shows the error toast; in particular this
    is so in every session before the first successful stamp. *)
Theorem download_needs_a_stamp :
  forall (s : App.AppState),
    App.signedBlob s = None \/ App.uploadedPdf s = None ->
    Actions.handleDownload s
    = (inr None, App.showError Actions.noDownloadMessage s).
Proof.
  intros s Hmiss. unfold Actions.handleDownload, App.bind, App.read.
  destruct (App.signedBlob s) as [blob|]; [|reflexivity].
  destruct (App.uploadedPdf s) as [pdf|]; [|reflexivity].
  destruct Hmiss; discriminate.
Qed.

Lemma download_needs_a_stamp_witness :
  (App.signedBlob (app Sample.ready) = None \/ App.uploadedPdf (app Sample.ready) = None)
  /\ fst (Actions.handleDownload (app Sample.ready)) = inr None.
Proof.
  assert (Hmiss : App.signedBlob (app Sample.ready) = None
                  \/ App.uploadedPdf (app Sample.ready) = None)
    by (left; reflexivity).
  split; [exact Hmiss|].
  rewrite (download_needs_a_stamp (app Sample.ready) Hmiss). reflexivity.
Defined.

(** X15.  A confirmed delete that the backend carries out returns the
    session to its first step: no uploads, no ids, no outputs, an empty
    history, [hasSignedOnce] false; the placement mode and the signature
    preview are not reset.  A stamp requested next is refused with the
    missing-uploads message. *)
Theorem delete_returns_to_start :
  forall (L : Collaborators) (s : App.AppState) (signedId : string)
         (deleteSignedDocument : string -> Exn + unit),
    App.signedDocumentId s = Some signedId ->
    signedId <> ""%string ->
    deleteSignedDocument signedId = inr tt ->
    let s' := App.after (Actions.handleDeleteSignedPdf true deleteSignedDocument) s in
    App.currentStep s' = App.upload /\
    App.uploadedPdf s' = None /\ App.uploadedSignature s' = None /\
    App.documentId s' = None /\ App.signatureId s' = None /\
    App.signedBlob s' = None /\ App.signedPdfUrl s' = None /\
    App.signedDocumentId s' = None /\
    App.signatureBoxState s' = {| history := []; index := -1 |} /\
    App.hasSignedOnce s' = false /\ App.error s' = None /\
    App.placementMode s' = App.placementMode s /\
    App.signaturePreviewUrl s' = App.signaturePreviewUrl s /\
    App.after App.handleSignPdf s'
    = App.showError App.missingUploadsMessage
        (App.setError (Some App.missingUploadsMessage) s').
Proof.
  intros L s signedId del Hid Hne Hdel s'.
  assert (Es' : s' = App.showSuccess Actions.deletedToast
                       (App.dismiss (List.length (App.toasts s))
                          (Actions.resetAfterDelete
                             (App.setToasts
                                (App.toasts s
                                 ++ [App.Loading (List.length (App.toasts s))
                                                 Actions.deletingToast]) s)))).
  { unfold s', App.after, Actions.handleDeleteSignedPdf, App.bind, App.read.
    rewrite Hid. rewrite (falsy_nonempty signedId Hne). cbn [negb].
    unfold App.showLoading, App.tryCatch, App.bind, App.await, App.update.
    rewrite Hdel. reflexivity. }
  clearbody s'. subst s'.
  do 13 (split; [reflexivity|]).
  apply sign_without_uploads; reflexivity.
Qed.

Lemma delete_returns_to_start_witness :
  App.signedDocumentId Stamped.signedOnce = Some "signed-1"%string /\
  "signed-1"%string <> ""%string /\
  Further.deleteOk "signed-1" = inr tt /\
  App.currentStep
    (App.after (Actions.handleDeleteSignedPdf true Further.deleteOk) Stamped.signedOnce)
  = App.upload.
Proof.
  assert (Hid : App.signedDocumentId Stamped.signedOnce = Some "signed-1"%string)
    by (vm_compute; reflexivity).
  assert (Hne : "signed-1"%string <> ""%string) by discriminate.
  split; [exact Hid|]. split; [exact Hne|]. split; [reflexivity|].
  exact (proj1 (delete_returns_to_start (Sample.collaborators Sample.twoPages)
                  Stamped.signedOnce "signed-1" Further.deleteOk Hid Hne eq_refl)).
Defined.

(** X16.  A delete that is not confirmed, or that has no id of a signed
    document to send, changes nothing and shows nothing; a delete that the
    backend refuses resets nothing: it only adds the loading toast, its
    dismissal and the error toast. *)
Theorem delete_failure_resets_nothing :
  forall (s : App.AppState) (confirmed : bool)
         (deleteSignedDocument : string -> Exn + unit),
    (App.falsy (App.signedDocumentId s) = true \/ confirmed = false ->
     App.after (Actions.handleDeleteSignedPdf confirmed deleteSignedDocument) s = s)
    /\
    (forall signedId e,
       App.signedDocumentId s = Some signedId -> signedId <> ""%string ->
       confirmed = true ->
       deleteSignedDocument signedId = inl e ->
       App.after (Actions.handleDeleteSignedPdf confirmed deleteSignedDocument) s
       = App.setToasts
           (App.toasts s
            ++ [App.Loading (List.length (App.toasts s)) Actions.deletingToast;
                App.Dismiss (List.length (App.toasts s));
                App.Error (App.orElse (message e) Actions.deleteFailedMessage)])
           s).
Proof.
  intros s confirmed del. split.
  - intros Hno. unfold App.after, Actions.handleDeleteSignedPdf, App.bind, App.read.
    destruct (App.falsy (App.signedDocumentId s)); [reflexivity|].
    destruct Hno as [Hno|Hno]; [discriminate|]. rewrite Hno. reflexivity.
  - intros signedId e Hid Hne Hc Hdel.
    unfold App.after, Actions.handleDeleteSignedPdf, App.bind, App.read.
    rewrite Hid, (falsy_nonempty signedId Hne), Hc. cbn [negb].
    unfold App.showLoading, App.tryCatch, App.bind, App.await, App.update.
    rewrite Hdel. cbn. unfold App.showError, App.dismiss, App.setToasts.
    cbn. rewrite <- !app_assoc. reflexivity.
Qed.

Lemma delete_failure_resets_nothing_witness :
  App.falsy (App.signedDocumentId Further.signedOffline) = true /\
  App.after (Actions.handleDeleteSignedPdf true Further.deleteOk) Further.signedOffline
  = Further.signedOffline.
Proof.
  assert (Hf : App.falsy (App.signedDocumentId Further.signedOffline) = true)
    by (vm_compute; reflexivity).
  split; [exact Hf|].
  exact (proj1 (delete_failure_resets_nothing Further.signedOffline true Further.deleteOk)
           (or_introl Hf)).
Defined.

(** ** Upload validation *)

Lemma existsb_eqb_In (str : string) (l : list string) :
  existsb (String.eqb str) l = true <-> In str l.
Proof.
  rewrite existsb_exists. split.
  - intros [x [Hin Heq]]. apply String.eqb_eq in Heq. subst x. exact Hin.
  - intro Hin. exists str. split; [exact Hin|apply String.eqb_refl].
Qed.

(** X17.  [validateImage] accepts a file exactly when its declared type is
    one of image/png, image/jpeg, image/jpg or its name, in lower case, ends
    in .png, .jpg or .jpeg, and its size is between 1024 bytes and 5 MB
    (both included).  A file with neither an allowed type nor an allowed
    extension is reported as of the wrong type whatever its size. *)
Theorem validateImage_accepts :
  forall (file : File),
    (SignatureUpload.validateImage file = None <->
     (In (file_type file) SignatureUpload.allowedTypes \/
      exists ext, In ext SignatureUpload.allowedExtensions /\
                  Str.endsWith (Str.toLowerCase (file_name file)) ext = true) /\
     (1024 <= file_size file <= 5242880)%Z)
    /\
    (~ In (file_type file) SignatureUpload.allowedTypes ->
     (forall ext, In ext SignatureUpload.allowedExtensions ->
                  Str.endsWith (Str.toLowerCase (file_name file)) ext = false) ->
     SignatureUpload.validateImage file = Some SignatureUpload.wrongTypeMessage).
Proof.
  intro file. unfold SignatureUpload.validateImage.
  pose proof (existsb_eqb_In (file_type file) SignatureUpload.allowedTypes) as Ht.
  pose proof (existsb_exists
                (fun ext => Str.endsWith (Str.toLowerCase (file_name file)) ext)
                SignatureUpload.allowedExtensions) as Hx.
  destruct (existsb (String.eqb (file_type file)) SignatureUpload.allowedTypes) eqn:Et;
  destruct (existsb (fun ext => Str.endsWith (Str.toLowerCase (file_name file)) ext)
                    SignatureUpload.allowedExtensions) eqn:Ex;
  cbn [negb andb].
  4:{ split; [|reflexivity]. split; [discriminate|].
      intros [[Hin|Hin] _].
      - apply Ht in Hin. discriminate.
      - apply Hx in Hin. discriminate. }
  all: split;
    [|intros Hnt Hnx; exfalso;
      try (apply Hnt, Ht; reflexivity);
      destruct (proj1 Hx eq_refl) as [ext [Hin He]];
      rewrite (Hnx ext Hin) in He; discriminate].
  all: assert (Hok : In (file_type file) SignatureUpload.allowedTypes \/
                     exists ext, In ext SignatureUpload.allowedExtensions /\
                       Str.endsWith (Str.toLowerCase (file_name file)) ext = true)
         by (first [left; apply Ht; reflexivity | right; apply Hx; reflexivity]).
  all: destruct (file_size file >? 5 * 1024 * 1024)%Z eqn:E1;
    [split; [discriminate|intros [_ Hs]; apply Z.gtb_lt in E1; lia]|].
  all: destruct (file_size file <? 1024)%Z eqn:E2;
    [split; [discriminate|intros [_ Hs]; apply Z.ltb_lt in E2; lia]|].
  all: split; [intros _|reflexivity].
  all: split; [exact Hok|].
  all: rewrite Z.gtb_ltb in E1; apply Z.ltb_ge in E1, E2; lia.
Qed.

Lemma validateImage_accepts_witness :
  ((In (file_type Further.misnamedJpeg) SignatureUpload.allowedTypes \/
    exists ext, In ext SignatureUpload.allowedExtensions /\
      Str.endsWith (Str.toLowerCase (file_name Further.misnamedJpeg)) ext = true) /\
   (1024 <= file_size Further.misnamedJpeg <= 5242880)%Z) /\
  SignatureUpload.validateImage Further.misnamedJpeg = None.
Proof.
  assert (Hok : (In (file_type Further.misnamedJpeg) SignatureUpload.allowedTypes \/
                 exists ext, In ext SignatureUpload.allowedExtensions /\
                   Str.endsWith (Str.toLowerCase (file_name Further.misnamedJpeg)) ext
                   = true) /\
                (1024 <= file_size Further.misnamedJpeg <= 5242880)%Z).
  { split.
    - right. exists ".png"%string. split; [left; reflexivity|reflexivity].
    - vm_compute. split; discriminate. }
  split; [exact Hok|].
  exact (proj2 (proj1 (validateImage_accepts Further.misnamedJpeg)) Hok).
Defined.

(** X18.  [validateFile] accepts a file exactly when its declared type
    contains pdf or its name, in lower case, ends in .pdf, and its size is
    between 1024 bytes and 200 MB (both included). *)
Theorem validateFile_accepts :
  forall (file : File),
    PDFUpload.validateFile file = None <->
    (App.includes (file_type file) "pdf" = true \/
     Str.endsWith (Str.toLowerCase (file_name file)) ".pdf" = true) /\
    (1024 <= file_size file <= 209715200)%Z.
Proof.
  intro file. unfold PDFUpload.validateFile.
  destruct (App.includes (file_type file) "pdf") eqn:Et;
  destruct (Str.endsWith (Str.toLowerCase (file_name file)) ".pdf") eqn:Ex;
  cbn [negb andb].
  4:{ split; [discriminate|]. intros [[H|H] _]; discriminate. }
  all: destruct (file_size file >? 200 * 1024 * 1024)%Z eqn:E1;
    [split; [discriminate|intros [_ Hs]; apply Z.gtb_lt in E1; lia]|].
  all: destruct (file_size file <? 1024)%Z eqn:E2;
    [split; [discriminate|intros [_ Hs]; apply Z.ltb_lt in E2; lia]|].
  all: split; [intros _|reflexivity].
  all: split; [auto|].
  all: rewrite Z.gtb_ltb in E1; apply Z.ltb_ge in E1, E2; lia.
Qed.

Lemma validateFile_accepts_witness :
  ((App.includes (file_type Further.scan) "pdf" = true \/
    Str.endsWith (Str.toLowerCase (file_name Further.scan)) ".pdf" = true) /\
   (1024 <= file_size Further.scan <= 209715200)%Z) /\
  PDFUpload.validateFile Further.scan = None.
Proof.
  assert (Hok : (App.includes (file_type Further.scan) "pdf" = true \/
                 Str.endsWith (Str.toLowerCase (file_name Further.scan)) ".pdf" = true) /\
                (1024 <= file_size Further.scan <= 209715200)%Z).
  { split; [right; reflexivity|]. vm_compute. split; discriminate. }
  split; [exact Hok|].
  exact (proj2 (validateFile_accepts Further.scan) Hok).
Defined.

(** X19.  For a file whose declared type is on the allow-list of
    [validateImage], the embed step of [handleSignPdf] calls the decoder of
    that type: [embedPng] for image/png, [embedJpg] for image/jpeg and
    image/jpg. *)
Theorem allowed_type_picks_its_decoder :
  forall (L : Collaborators) (pdfDoc : PDFDocument) (file : File),
    In (file_type file) SignatureUpload.allowedTypes ->
    embedSignature pdfDoc file
    = if String.eqb (file_type file) "image/png"
      then embedPng pdfDoc (file_bytes file)
      else embedJpg pdfDoc (file_bytes file).
Proof.
  intros L pdfDoc file Hin. unfold embedSignature.
  destruct Hin as [<-|[<-|[<-|[]]]]; reflexivity.
Qed.

Lemma allowed_type_picks_its_decoder_witness :
  In (file_type Sample.pngFile) SignatureUpload.allowedTypes /\
  embedSignature (H := Sample.collaborators Sample.twoPages) Sample.twoPages Sample.pngFile
  = inr (mkImage 1).
Proof.
  assert (Hin : In (file_type Sample.pngFile) SignatureUpload.allowedTypes)
    by (left; reflexivity).
  split; [exact Hin|].
  rewrite (allowed_type_picks_its_decoder (Sample.collaborators Sample.twoPages)
             Sample.twoPages Sample.pngFile Hin).
  reflexivity.
Defined.

(** ** The Stamp PDF button *)

(** X20.  While a stamp is in progress, or once [hasSignedOnce] is set, the
    handler of the Stamp PDF button changes nothing.  Whenever the button
    is enabled and both ids are set, it does what [handleSignPdf] does. *)
Theorem stamp_button_handler :
  forall (L : Collaborators) (s : App.AppState),
    (App.isSigning s = true \/ App.hasSignedOnce s = true ->
     App.after App.handleStampPdf s = s)
    /\
    (stampButtonDisabled s = false ->
     App.falsy (App.documentId s) = false ->
     App.falsy (App.signatureId s) = false ->
     App.after App.handleStampPdf s = App.after App.handleSignPdf s).
Proof.
  intros L s. split.
  - intros Hbusy. unfold App.after, App.handleStampPdf, App.bind, App.read.
    assert (Hg : App.falsy (App.documentId s) || App.falsy (App.signatureId s)
                 || match App.uploadedSignature s with None => true | Some _ => false end
                 || match App.currentSignatureBox s with None => true | Some _ => false end
                 || App.isSigning s || App.hasSignedOnce s = true).
    { destruct Hbusy as [-> | ->]; rewrite ?orb_true_r; reflexivity. }
    rewrite Hg. reflexivity.
  - unfold stampButtonDisabled. intros Hen Hd Hg.
    apply orb_false_iff in Hen. destruct Hen as [Hen Hflag].
    apply orb_false_iff in Hen. destruct Hen as [Hen Hbusy].
    apply orb_false_iff in Hen. destruct Hen as [Hen Hbox].
    apply orb_false_iff in Hen. destruct Hen as [_ Hsig].
    unfold App.after, App.handleStampPdf, App.bind, App.read.
    rewrite Hd, Hg, Hsig, Hbox, Hbusy, Hflag. reflexivity.
Qed.

Lemma stamp_button_handler_witness :
  stampButtonDisabled (app Sample.ready) = false /\
  App.after (App.handleStampPdf (H := Sample.collaborators Sample.twoPages))
            (app Sample.ready)
  = App.after (App.handleSignPdf (H := Sample.collaborators Sample.twoPages))
              (app Sample.ready).
Proof.
  assert (Hen : stampButtonDisabled (app Sample.ready) = false) by reflexivity.
  split; [exact Hen|].
  exact (proj2 (stamp_button_handler (Sample.collaborators Sample.twoPages)
                  (app Sample.ready)) Hen eq_refl eq_refl).
Defined.

(** ** A click on the first page *)

(** X21.  In a session that follows a signature upload, a click on the
    first page appends exactly one snapshot, the box built around the
    click, makes it the current box and moves the index to it; and once the
    effect on the current box has run, the marker sits at the centre of
    that box, not at the click point that [onPositionSelect] reported. *)
Theorem first_page_click_commits :
  forall file sigId s rect events event,
    let w := run (placing file sigId s rect) events in
    let w' := dispatch w (PDFPreview.Click 0 event) in
    history (boxStateOf w') = history (boxStateOf w) ++ [Some (clickBoxOf event)] /\
    index (boxStateOf w') = (index (boxStateOf w) + 1)%Z /\
    App.currentSignatureBox (app w') = Some (clickBoxOf event) /\
    App.signaturePosition (app w') = Some (App.boxCentre (clickBoxOf event)) /\
    refs w' = refs w.
Proof.
  intros file sigId s rect events event w w'.
  assert (Hok : session_ok w) by (apply run_ok, placing_ok).
  pose proof (ok_placement w Hok) as Hp.
  pose proof (ok_tail w Hok) as Ht. unfold at_tail in Ht.
  set (b := clickBoxOf event).
  assert (Hcb : PDFPreview.handlePageClick (propsOf (app w)) event 0
                = [PDFPreview.SignatureBoxChange (Some b) (Some true);
                   PDFPreview.PositionSelect
                     (Num.toFixed4 ((click_clientX event - rect_left (click_targetRect event))
                                    / rect_width (click_targetRect event)))
                     (Num.toFixed4 ((click_clientY event - rect_top (click_targetRect event))
                                    / rect_height (click_targetRect event)))]).
  { unfold PDFPreview.handlePageClick.
    change (PDFPreview.onPositionSelect (propsOf (app w))) with true.
    change (PDFPreview.onSignatureBoxChange (propsOf (app w))) with true.
    change (PDFPreview.placementMode (propsOf (app w))) with (App.placementMode (app w)).
    rewrite Hp. reflexivity. }
  assert (Hst : boxStateOf w'
                = {| history := history (boxStateOf w) ++ [Some b];
                     index := index (boxStateOf w) + 1 |}).
  { unfold w'. rewrite boxState_dispatch. cbn [PDFPreview.onEvent snd].
    rewrite Hcb. cbn [fold_left stepBox].
    unfold updateBoxState. rewrite box_eta.
    rewrite slice0_all by lia. f_equal.
    rewrite length_app. simpl. lia. }
  assert (Hcur : App.currentSignatureBox (app w') = Some b).
  { change (App.currentSignatureBox (app w')) with (currentBoxOf (boxStateOf w')).
    unfold w'. rewrite boxState_dispatch. cbn [PDFPreview.onEvent snd].
    rewrite Hcb. cbn [fold_left stepBox]. apply current_after_update. }
  rewrite Hst. cbn [history index].
  split; [reflexivity|]. split; [reflexivity|]. split; [exact Hcur|].
  split.
  - assert (Happ : app w' = App.syncSignaturePosition
                              (fold_left applyCallback
                                 (PDFPreview.handlePageClick (propsOf (app w)) event 0)
                                 (app w))).
    { unfold w', dispatch. cbn [PDFPreview.onEvent]. rewrite Hcb. reflexivity. }
    rewrite Happ in Hcur |- *.
    unfold App.syncSignaturePosition in *.
    change (App.currentSignatureBox
              (App.setSignaturePosition ?p ?s0)) with (App.currentSignatureBox s0) in Hcur.
    cbn [App.signaturePosition App.setSignaturePosition].
    rewrite Hcur. reflexivity.
  - unfold w'. rewrite refs_dispatch. reflexivity.
Qed.
